(** * Phone-prefix analysis of a user export: a Rocq model

    A shallow embedding of [src/utils/analisis_telefonos_streaming.py]:
    the registration index loader ([cargar_datos_csv]), the streaming
    record reconstructor and its accumulation loop
    ([analizar_archivo_json_streaming]), the record classifier
    ([procesar_objeto], [es_numero_mexicano_sin_prefijo]), the temporal
    aggregator ([analizar_distribucion_temporal]) and the driver ([main]).

    Python [str] values are lists of Unicode code points, Python [int]s are
    [Z], Python [float]s are binary64 primitive floats, dictionaries with
    computed keys are [gmap]s, dictionaries with a fixed set of literal keys
    are records whose optional keys are [option] fields, [print] appends a
    message to an output log, and exceptions are values of a sum type. *)

From Stdlib Require Import ZArith NArith Floats DecimalString Lia.
From stdpp Require Import strings list gmap sorting.

Set Warnings "-register-all,-clear-no-such-hyp".
Local Open Scope Z_scope.

(** ** Python strings *)

(** A [str] is a sequence of code points. *)
Abbreviation str := (list N).

(** [u "abc"] is the [str] of an ASCII literal. *)
Definition u (s : string) : str :=
  map (fun c => N.of_nat (Ascii.nat_of_ascii c)) (String.list_ascii_of_string s).

(** [j "{'a': 1}"] is the [str] of an ASCII literal in which every apostrophe
    stands for a double quote (code point 34); used to write JSON text. *)
Definition j (s : string) : str :=
  map (fun c => if N.eqb c 39 then 34%N else c) (u s).

Arguments u : simpl never.
Arguments j : simpl never.

Definition llave_abre : N := 123.     (* '{' *)
Definition llave_cierra : N := 125.   (* '}' *)
Definition coma : N := 44.            (* ',' *)
Definition salto_linea : N := 10.     (* '\n' *)
Definition bom : N := 65279.          (* U+FEFF, the byte-order mark *)

(** The characters [str.strip()] removes: those for which [str.isspace()]
    holds (CPython's [_PyUnicode_IsWhitespace]). *)
Definition es_espacio (c : N) : bool :=
  ((9 <=? c) && (c <=? 13) || (28 <=? c) && (c <=? 32)
   || (c =? 133) || (c =? 160) || (c =? 5760)
   || (8192 <=? c) && (c <=? 8202)
   || (c =? 8232) || (c =? 8233) || (c =? 8239) || (c =? 8287)
   || (c =? 12288))%N.

(** [s.lstrip(chars)], [s.rstrip(chars)] for a character class [P]. *)
Fixpoint lstrip_con (P : N -> bool) (s : str) : str :=
  match s with
  | c :: s' => if P c then lstrip_con P s' else s
  | [] => []
  end.

Definition rstrip_con (P : N -> bool) (s : str) : str :=
  rev (lstrip_con P (rev s)).

(** [s.strip()] *)
Definition strip (s : str) : str := rstrip_con es_espacio (lstrip_con es_espacio s).

(** [s.startswith(p)] *)
Fixpoint startswith (s p : str) : bool :=
  match p, s with
  | [], _ => true
  | a :: p', b :: s' => (a =? b)%N && startswith s' p'
  | _ :: _, [] => false
  end.

(** [s.endswith(p)] *)
Definition endswith (s p : str) : bool := startswith (rev s) (rev p).

(** [s.count(c)] for a one-character [c]. *)
Definition count (c : N) (s : str) : Z :=
  Z.of_nat (length (filter (fun x => x = c) s)).

(** [s.split(sep)] for a one-character separator: never an empty list. *)
Fixpoint split (sep : N) (s : str) : list str :=
  match s with
  | [] => [[]]
  | c :: s' =>
      if (c =? sep)%N then [] :: split sep s'
      else match split sep s' with
           | campo :: resto => (c :: campo) :: resto
           | [] => [[c]]
           end
  end.

(** [s[-10:]] *)
Definition ultimos_10 (s : str) : str := drop (length s - 10)%nat s.

(** [p in s] for two strings: [p] occurs as a substring of [s]. *)
Fixpoint subcadena (p s : str) : bool :=
  startswith s p || match s with
                    | [] => false
                    | _ :: s' => subcadena p s'
                    end.

(** [x in l] and [l.index(x)] for a list of strings. *)
Definition en_lista (x : str) (l : list str) : bool := bool_decide (x ∈ l).

Fixpoint index (x : str) (l : list str) : option nat :=
  match l with
  | [] => None
  | y :: l' => if bool_decide (y = x) then Some 0%nat else S <$> index x l'
  end.

(** ** Python values *)

(** The values [json.loads] produces, which are also the values the
    classifier copies into its result. A [VDict] lists its items in
    insertion order, each key once. *)
Inductive valor : Type :=
  | VNone
  | VBool (b : bool)
  | VInt (z : Z)
  | VFloat (f : float)
  | VStr (s : str)
  | VList (l : list valor)
  | VDict (d : list (str * valor)).

(** The numbers of the summary: [0] is an [int], a percentage is a [float]. *)
Inductive numero : Type :=
  | NInt (z : Z)
  | NFloat (f : float).

Inductive excepcion : Type :=
  | JSONDecodeError
  | TypeError
  | KeyError (k : str)
  | OtraExcepcion.

(** A computation that returns or raises. *)
Definition resultado (A : Type) : Type := excepcion + A.

Definition ret {A} (a : A) : resultado A := inr a.
Definition raise {A} (e : excepcion) : resultado A := inl e.
Definition bind {A B} (m : resultado A) (k : A -> resultado B) : resultado B :=
  match m with
  | inl e => inl e
  | inr a => k a
  end.

Notation "'let*' x ':=' m 'in' k" := (bind m (fun x => k))
  (at level 10, x name, m at level 100, k at level 200).

(** ** Operators of Python on these values *)

(** [d[k]] on the items of a dictionary, when the key is present. *)
Fixpoint buscar (k : str) (d : list (str * valor)) : option valor :=
  match d with
  | [] => None
  | (k', v) :: d' => if bool_decide (k' = k) then Some v else buscar k d'
  end.

(** [k in v] for a string [k]: key membership in a dictionary, element
    membership in a list, substring test in a string, [TypeError] on a value
    that is not a container. *)
Definition py_in (k : str) (v : valor) : resultado bool :=
  match v with
  | VDict d => ret (bool_decide (is_Some (buscar k d)))
  | VList l =>
      ret (existsb (fun x => match x with
                             | VStr s => bool_decide (s = k)
                             | _ => false
                             end) l)
  | VStr s => ret (subcadena k s)
  | _ => raise TypeError
  end.

(** [v[k]] for a string [k]: only a dictionary can be indexed by a string. *)
Definition py_getitem (v : valor) (k : str) : resultado valor :=
  match v with
  | VDict d =>
      match buscar k d with
      | Some x => ret x
      | None => raise (KeyError k)
      end
  | _ => raise TypeError
  end.

(** [v.get(k, defecto)]: a method of dictionaries only. *)
Definition py_get (v : valor) (k : str) (defecto : valor) : resultado valor :=
  match v with
  | VDict d => ret (default defecto (buscar k d))
  | _ => raise OtraExcepcion
  end.

(** Truth value of [v], as [if v:] tests it. *)
Definition py_bool (v : valor) : bool :=
  match v with
  | VNone => false
  | VBool b => b
  | VInt z => negb (z =? 0)
  | VFloat f => negb (PrimFloat.eqb f 0%float)
  | VStr s => negb (bool_decide (s = []))
  | VList l => negb (bool_decide (l = []))
  | VDict d => negb (bool_decide (d = []))
  end.

(** The subject of [re.sub] must be a string. *)
Definition como_str (v : valor) : resultado str :=
  match v with
  | VStr s => ret s
  | _ => raise TypeError
  end.

(** [str(z)] for an [int], and the format [{z:02d}]. *)
Definition str_de_int (z : Z) : str :=
  u (NilZero.string_of_int (Z.to_int z)).

Definition formato_02d (z : Z) : str :=
  let s := str_de_int z in
  if (length s <? 2)%nat then u "0" ++ s else s.

(** ** Python floats *)

Definition sf_de_int (z : Z) : SpecFloat.spec_float :=
  match z with
  | Z0 => SpecFloat.S754_zero false
  | Zpos p => SpecFloat.S754_finite false p 0
  | Zneg p => SpecFloat.S754_finite true p 0
  end.

(** [a / b] on two [int]s, [b] nonzero: the quotient correctly rounded to
    binary64. *)
Definition py_truediv (a b : Z) : float :=
  SF2Prim (SpecFloat.SFdiv prec emax (sf_de_int a) (sf_de_int b)).

(** The integer nearest to [n / d] ([d] positive), ties to even. *)
Definition entero_mas_cercano (n d : Z) : Z :=
  let q := n / d in
  let r := n mod d in
  match 2 * r ?= d with
  | Lt => q
  | Gt => q + 1
  | Eq => if Z.even q then q else q + 1
  end.

(** [round(x, 2)] on a [float]: the exact value of [x] rounded to two
    decimals, ties to even, then the binary64 nearest to that decimal. *)
Definition py_round2 (x : float) : float :=
  match Prim2SF x with
  | SpecFloat.S754_finite s m e =>
      let centesimas :=
        if 0 <=? e then Z.pos m * 100 * 2 ^ e
        else entero_mas_cercano (Z.pos m * 100) (2 ^ (- e)) in
      let numerador :=
        match centesimas with
        | Zpos p => SpecFloat.S754_finite s p 0
        | _ => SpecFloat.S754_zero s
        end in
      SF2Prim (SpecFloat.SFdiv prec emax numerador (sf_de_int 100))
  | _ => x
  end.

(** [round((parte / total * 100), 2) if total > 0 else 0], the expression of
    lines 218, 344 and 345. *)
Definition porcentaje (parte total : Z) : numero :=
  if 0 <? total then NFloat (py_round2 (py_truediv parte total * 100)%float)
  else NInt 0.

(** [a == b] on two numbers. *)
Definition numero_igual (a b : numero) : bool :=
  match a, b with
  | NInt x, NInt y => x =? y
  | NInt x, NFloat g => PrimFloat.eqb (SF2Prim (sf_de_int x)) g
  | NFloat f, NInt y => PrimFloat.eqb f (SF2Prim (sf_de_int y))
  | NFloat f, NFloat g => PrimFloat.eqb f g
  end.

(** [100 - x], line 418. *)
Definition cien_menos (x : numero) : numero :=
  match x with
  | NInt z => NInt (100 - z)
  | NFloat f => NFloat (100 - f)%float
  end.

(** ** The dictionaries with literal keys *)

(** [info_usuario] (lines 252-288): the eight keys always present and the
    seven keys set under a condition. *)
Module Info.
Record t := mk {
  phone : str;
  phone_limpio : str;
  ultimos_10_digitos : str;
  phone_length : Z;
  email : valor;
  external_id : valor;
  country : valor;
  fecha_registro : valor;
  anio_registro : option Z;
  mes_registro : option Z;
  periodo : option str;
  nombre : option valor;
  apellido_paterno : option valor;
  apellido_materno : option valor;
  entidad : option valor
}.
End Info.

(** The dictionary [procesar_objeto] returns (lines 290-293). *)
Module Procesado.
Record t := mk { sin_prefijo : bool; info : Info.t }.
End Procesado.

(** One element of [analisis_temporal['datos']] (lines 347-354). *)
Module Bucket.
Record t := mk {
  periodo : str;
  sin_prefijo : Z;
  con_prefijo : Z;
  total : Z;
  porcentaje_sin_prefijo : numero;
  porcentaje_con_prefijo : numero
}.
End Bucket.

(** [analisis_temporal] (lines 332-335). *)
Module Temporal.
Record t := mk { periodos : list str; datos : list Bucket.t }.
End Temporal.

(** [resultados_analisis] when it is the six-key dictionary of lines
    213-220; the empty dictionary of lines 141 and 226 is [None] in
    [option Resumen.t]. *)
Module Resumen.
Record t := mk {
  total_usuarios : Z;
  total_con_telefono : Z;
  total_sin_prefijo : Z;
  total_con_prefijo : Z;
  porcentaje_sin_prefijo : numero;
  analisis_temporal : Temporal.t
}.
End Resumen.

(** ** Standard output: one message per [print] *)
Inductive mensaje : Type :=
  | MsgCargandoCSV                              (* line 62 *)
  | MsgColumnasNoEncontradas                    (* line 105 *)
  | MsgColumnasEncontradas (encabezado : list str)  (* line 106 *)
  | MsgSeCargaron (n : Z)                       (* line 108 *)
  | MsgErrorCargarCSV                           (* line 112 *)
  | MsgAnalizando                               (* line 123 *)
  | MsgNoComienzaConCorchete                    (* line 140 *)
  | MsgErrorProcesarArchivo                     (* line 225 *)
  | MsgErrorDecodificarJSON (previa : str)      (* line 298 *)
  | MsgErrorProcesarObjeto (e : excepcion)      (* line 301 *)
  | MsgIniciando                                (* line 408 *)
  | MsgResultados                               (* line 414 *)
  | MsgTotalProcesados (n : Z)                  (* line 415 *)
  | MsgConTelefono (n : Z)                      (* line 416 *)
  | MsgSinPrefijo (n : Z) (p : numero)          (* line 417 *)
  | MsgConPrefijo (n : Z) (p : numero)          (* line 418 *)
  | MsgAnalisisTemporal                         (* lines 421-422 *)
  | MsgPeriodo (b : Bucket.t)                   (* line 424 *)
  | MsgGuardados                                (* lines 400-404 *)
  | MsgCompletado.                              (* line 429 *)

(** Python compares strings by code point, position by position. *)
Fixpoint str_leb (a b : str) : bool :=
  match a, b with
  | [], _ => true
  | _ :: _, [] => false
  | x :: a', y :: b' => (x <? y)%N || (x =? y)%N && str_leb a' b'
  end.

Definition str_le (a b : str) : Prop := str_leb a b = true.
Definition str_lt (a b : str) : Prop := str_le a b /\ a <> b.

#[global] Instance str_le_dec (a b : str) : Decision (str_le a b).
Proof. unfold str_le. apply _. Defined.

(** [sorted(l)] for a list of strings. *)
Definition sorted (l : list str) : list str := merge_sort str_le l.

(** ** What the Python libraries supply

    The digit class of [re] ([\d] on a [str] pattern is the Unicode decimal
    digits), [json.loads], [datetime.strptime] with the format
    ['%Y-%m-%d %H:%M:%S'] (its result read through [.year] and [.month]) and
    [bytes.decode('utf-8', errors='ignore')] are not code of this repository:
    the model takes them as an environment. *)
Record fecha := { year : Z; month : Z }.

Class Entorno := {
  es_digito : N -> bool;
  json_loads : str -> resultado valor;
  strptime : str -> option fecha;
  decode : list Byte.byte -> str
}.

(** An environment agrees with ASCII when ['0'..'9'] are digits and no other
    ASCII character is. *)
Definition digitos_ascii (E : Entorno) : Prop :=
  forall c : N, (c < 128)%N -> es_digito c = ((48 <=? c) && (c <=? 57))%N.

(** The three variables of the reconstructor, lines 144-146. *)
Module Lector.
Record t := mk { objeto_actual : str; en_objeto : bool; llaves_abiertas : Z }.
End Lector.

(** The variables of the loop of [analizar_archivo_json_streaming], with
    the messages printed so far. *)
Module Estado.
Record t := mk {
  lector : Lector.t;
  usuarios_sin_prefijo : list Info.t;
  usuarios_con_prefijo : list Info.t;
  total_usuarios : Z;
  total_usuarios_con_telefono : Z;
  salida : list mensaje
}.
End Estado.

(** ** The streaming record reconstructor, lines 149-207

    [leer_linea] is one iteration of the loop without the processing of a
    completed object: it returns the reconstructor's variables after the
    line and, when the line completes an object, the text [objeto_json]
    that is handed to [procesar_objeto]. *)
Definition lector_inicial : Lector.t :=
  {| Lector.objeto_actual := []; Lector.en_objeto := false; Lector.llaves_abiertas := 0 |}.

Definition sin_coma_final (linea objeto_actual : str) : str :=
  if endswith linea (u "},") then removelast objeto_actual else objeto_actual.

Definition leer_linea (r : Lector.t) (linea_cruda : str) : Lector.t * option str :=
  let linea := strip linea_cruda in
  if bool_decide (linea = []) then (r, None)
  else if negb (Lector.en_objeto r) then
    if startswith linea (u "{") then
      let objeto_actual := linea in
      let llaves_abiertas := count llave_abre linea - count llave_cierra linea in
      if (llaves_abiertas =? 0) && endswith linea (u "},") || endswith linea (u "}")
      then
        ({| Lector.objeto_actual := []; Lector.en_objeto := false;
            Lector.llaves_abiertas := llaves_abiertas |},
         Some (sin_coma_final linea objeto_actual))
      else
        ({| Lector.objeto_actual := objeto_actual; Lector.en_objeto := true;
            Lector.llaves_abiertas := llaves_abiertas |}, None)
    else (r, None)
  else
    let objeto_actual := Lector.objeto_actual r ++ linea in
    let llaves_abiertas :=
      Lector.llaves_abiertas r + (count llave_abre linea - count llave_cierra linea) in
    if (llaves_abiertas =? 0) && (endswith linea (u "},") || endswith linea (u "}"))
    then
      ({| Lector.objeto_actual := []; Lector.en_objeto := false;
          Lector.llaves_abiertas := llaves_abiertas |},
       Some (sin_coma_final linea objeto_actual))
    else
      ({| Lector.objeto_actual := objeto_actual; Lector.en_objeto := true;
          Lector.llaves_abiertas := llaves_abiertas |}, None).

Section Clasificador.
Context {E : Entorno}.

(** [re.sub(r'\D', '', s)] *)
Definition solo_digitos (s : str) : str := filter (fun c => es_digito c = true) s.

(** Lines 31-53. *)
Definition es_numero_mexicano_sin_prefijo (numero : str) : bool :=
  if bool_decide (numero = []) then false
  else
    let numero_limpio := solo_digitos numero in
    bool_decide (length numero_limpio = 10%nat).

(** *** The registration index loader, lines 55-113 *)

(** The body of the loop over the data lines, lines 91-103. *)
Definition cargar_linea (hostRegister_idx phone_idx : nat)
    (registros : gmap str str) (linea : str) : gmap str str :=
  if bool_decide (strip linea = []) then registros
  else
    let campos := split coma (strip linea) in
    if (Nat.max hostRegister_idx phone_idx + 1 <=? length campos)%nat then
      match campos !! hostRegister_idx, campos !! phone_idx with
      | Some fecha_registro, Some numero_telefono =>
          let numero_limpio := solo_digitos numero_telefono in
          if (10 <=? length numero_limpio)%nat
          then <[ultimos_10 numero_limpio := fecha_registro]> registros
          else registros
      | _, _ => registros
      end
    else registros.

(** [contenido] after the byte-order mark is dropped, lines 71-72. *)
Definition sin_bom (contenido : list Byte.byte) : list Byte.byte :=
  match contenido with
  | Byte.xef :: Byte.xbb :: Byte.xbf :: resto => resto
  | _ => contenido
  end.

(** [encabezado] after line 82. *)
Definition leer_encabezado (primera : str) : list str :=
  match split coma (strip primera) with
  | campo :: resto => strip (lstrip_con (fun c => (c =? bom)%N) campo) :: resto
  | [] => []
  end.

(** [archivo] is what [open(ARCHIVO_CSV, 'rb').read()] gives: the bytes of
    the file, or [None] when it raises. *)
Definition cargar_datos_csv (archivo : option (list Byte.byte))
    : list mensaje * gmap str str :=
  match archivo with
  | None => ([MsgCargandoCSV; MsgErrorCargarCSV], ∅)
  | Some contenido =>
      let lineas := split salto_linea (decode (sin_bom contenido)) in
      match lineas with
      | [] => ([MsgCargandoCSV; MsgSeCargaron 0], ∅)
      | primera :: datos =>
          let encabezado := leer_encabezado primera in
          if en_lista (u "hostRegister") encabezado && en_lista (u "phone") encabezado
          then
            match index (u "hostRegister") encabezado, index (u "phone") encabezado with
            | Some hostRegister_idx, Some phone_idx =>
                let registros := foldl (cargar_linea hostRegister_idx phone_idx) ∅ datos in
                ([MsgCargandoCSV; MsgSeCargaron (Z.of_nat (size registros))], registros)
            | _, _ => ([MsgCargandoCSV; MsgErrorCargarCSV], ∅)
            end
          else
            ([MsgCargandoCSV; MsgColumnasNoEncontradas;
              MsgColumnasEncontradas encabezado; MsgSeCargaron 0], ∅)
      end
  end.

(** *** The record classifier, lines 228-302 *)

Definition no_disponible : str := u "No disponible".

(** [if k in ca: info[...] = ca[k]], lines 278-285. *)
Definition atributo (ca : valor) (k : str) : resultado (option valor) :=
  let* presente := py_in k ca in
  if presente then
    let* v := py_getitem ca k in ret (Some v)
  else ret None.

(** Lines 278-288 on [ca = usuario['custom_attributes']]: the four optional
    profile fields, and [info_usuario['fecha_registro']], which is
    [fecha_csv] when the block is entered. *)
Definition copiar_atributos (ca : valor) (fecha_csv : str)
    : resultado (option valor * option valor * option valor * option valor * valor) :=
  let* nombre := atributo ca (u "name") in
  let* apellido_paterno := atributo ca (u "paternal") in
  let* apellido_materno := atributo ca (u "maternal") in
  let* entidad := atributo ca (u "entity") in
  let* tiene_fecha := py_in (u "fechaRegistro") ca in
  let* fecha_registro :=
    (if tiene_fecha && bool_decide (fecha_csv = no_disponible)
     then py_getitem ca (u "fechaRegistro")
     else ret (VStr fecha_csv)) in
  ret (nombre, apellido_paterno, apellido_materno, entidad, fecha_registro).

(** The [try] block of [procesar_objeto] after [json.loads], lines 243-295. *)
Definition procesar_usuario (usuario : valor) (fechas_registro_csv : gmap str str)
    : resultado (option Procesado.t) :=
  let* presente := py_in (u "phone") usuario in
  let* con_telefono :=
    (if presente then
       let* telefono := py_getitem usuario (u "phone") in ret (py_bool telefono)
     else ret false) in
  if con_telefono then
    let* telefono := py_getitem usuario (u "phone") in
    let* phone := como_str telefono in
    let numero_limpio := solo_digitos phone in
    let ultimos_10_digitos :=
      if (10 <=? length numero_limpio)%nat then ultimos_10 numero_limpio
      else numero_limpio in
    let tiene_sin_prefijo := es_numero_mexicano_sin_prefijo phone in
    let* email := py_get usuario (u "email") (VStr no_disponible) in
    let* external_id := py_get usuario (u "external_id") (VStr no_disponible) in
    let* country := py_get usuario (u "country") (VStr no_disponible) in
    let fecha_csv := default no_disponible (fechas_registro_csv !! ultimos_10_digitos) in
    let fecha_obj := fechas_registro_csv !! ultimos_10_digitos ≫= strptime in
    let periodo :=
      (fun f => str_de_int (year f) ++ u "-" ++ formato_02d (month f)) <$> fecha_obj in
    let* tiene_ca := py_in (u "custom_attributes") usuario in
    let* extras :=
      (if tiene_ca then
         let* ca := py_getitem usuario (u "custom_attributes") in
         copiar_atributos ca fecha_csv
       else ret (None, None, None, None, VStr fecha_csv)) in
    let '(nombre, apellido_paterno, apellido_materno, entidad, fecha_registro) := extras in
    ret (Some {|
      Procesado.sin_prefijo := tiene_sin_prefijo;
      Procesado.info := {|
        Info.phone := phone;
        Info.phone_limpio := numero_limpio;
        Info.ultimos_10_digitos := ultimos_10_digitos;
        Info.phone_length := Z.of_nat (length numero_limpio);
        Info.email := email;
        Info.external_id := external_id;
        Info.country := country;
        Info.fecha_registro := fecha_registro;
        Info.anio_registro := year <$> fecha_obj;
        Info.mes_registro := month <$> fecha_obj;
        Info.periodo := periodo;
        Info.nombre := nombre;
        Info.apellido_paterno := apellido_paterno;
        Info.apellido_materno := apellido_materno;
        Info.entidad := entidad
      |}
    |})
  else ret None.

(** [procesar_objeto]: what it prints and what it returns. *)
Definition procesar_objeto (objeto_json : str) (fechas_registro_csv : gmap str str)
    : list mensaje * option Procesado.t :=
  match (let* usuario := json_loads objeto_json in
         procesar_usuario usuario fechas_registro_csv) with
  | inr r => ([], r)
  | inl JSONDecodeError => ([MsgErrorDecodificarJSON (take 100 objeto_json)], None)
  | inl e => ([MsgErrorProcesarObjeto e], None)
  end.

(** *** The temporal aggregator, lines 304-356 *)

(** [periodos[usuario['periodo']] += 1] when the key is present, on a
    [defaultdict(int)]. *)
Definition contar_periodo (periodos : gmap str Z) (usuario : Info.t) : gmap str Z :=
  match Info.periodo usuario with
  | Some p => <[p := default 0 (periodos !! p) + 1]> periodos
  | None => periodos
  end.

Definition analizar_distribucion_temporal
    (usuarios_sin_prefijo usuarios_con_prefijo : list Info.t) : Temporal.t :=
  let periodos_sin_prefijo := foldl contar_periodo ∅ usuarios_sin_prefijo in
  let periodos_con_prefijo := foldl contar_periodo ∅ usuarios_con_prefijo in
  let todos_periodos :=
    sorted (elements (dom periodos_sin_prefijo ∪ dom periodos_con_prefijo)) in
  {| Temporal.periodos := todos_periodos;
     Temporal.datos :=
       map (fun periodo =>
              let sin_prefijo := default 0 (periodos_sin_prefijo !! periodo) in
              let con_prefijo := default 0 (periodos_con_prefijo !! periodo) in
              let total := sin_prefijo + con_prefijo in
              {| Bucket.periodo := periodo;
                 Bucket.sin_prefijo := sin_prefijo;
                 Bucket.con_prefijo := con_prefijo;
                 Bucket.total := total;
                 Bucket.porcentaje_sin_prefijo := porcentaje sin_prefijo total;
                 Bucket.porcentaje_con_prefijo := porcentaje con_prefijo total |})
           todos_periodos |}.

(** *** The analysis loop, lines 115-226 *)

(** Lines 173-182 and 198-207: a completed object is classified and
    counted. *)
Definition registrar (fechas_registro_csv : gmap str str) (objeto_json : str)
    (st : Estado.t) : Estado.t :=
  let '(impreso, usuario_procesado) := procesar_objeto objeto_json fechas_registro_csv in
  match usuario_procesado with
  | Some r =>
      {| Estado.lector := Estado.lector st;
         Estado.usuarios_sin_prefijo :=
           if Procesado.sin_prefijo r
           then Estado.usuarios_sin_prefijo st ++ [Procesado.info r]
           else Estado.usuarios_sin_prefijo st;
         Estado.usuarios_con_prefijo :=
           if Procesado.sin_prefijo r
           then Estado.usuarios_con_prefijo st
           else Estado.usuarios_con_prefijo st ++ [Procesado.info r];
         Estado.total_usuarios := Estado.total_usuarios st + 1;
         Estado.total_usuarios_con_telefono := Estado.total_usuarios_con_telefono st + 1;
         Estado.salida := Estado.salida st ++ impreso |}
  | None =>
      {| Estado.lector := Estado.lector st;
         Estado.usuarios_sin_prefijo := Estado.usuarios_sin_prefijo st;
         Estado.usuarios_con_prefijo := Estado.usuarios_con_prefijo st;
         Estado.total_usuarios := Estado.total_usuarios st + 1;
         Estado.total_usuarios_con_telefono := Estado.total_usuarios_con_telefono st;
         Estado.salida := Estado.salida st ++ impreso |}
  end.

Definition con_lector (r : Lector.t) (st : Estado.t) : Estado.t :=
  {| Estado.lector := r;
     Estado.usuarios_sin_prefijo := Estado.usuarios_sin_prefijo st;
     Estado.usuarios_con_prefijo := Estado.usuarios_con_prefijo st;
     Estado.total_usuarios := Estado.total_usuarios st;
     Estado.total_usuarios_con_telefono := Estado.total_usuarios_con_telefono st;
     Estado.salida := Estado.salida st |}.

(** One iteration of [for linea in file], lines 149-207. *)
Definition paso (fechas_registro_csv : gmap str str) (st : Estado.t) (linea : str)
    : Estado.t :=
  let '(r, completo) := leer_linea (Estado.lector st) linea in
  match completo with
  | Some objeto_json => registrar fechas_registro_csv objeto_json (con_lector r st)
  | None => con_lector r st
  end.

Definition estado_inicial (impreso : list mensaje) : Estado.t :=
  {| Estado.lector := lector_inicial;
     Estado.usuarios_sin_prefijo := [];
     Estado.usuarios_con_prefijo := [];
     Estado.total_usuarios := 0;
     Estado.total_usuarios_con_telefono := 0;
     Estado.salida := impreso |}.

(** Lines 209-222. *)
Definition resumir (st : Estado.t) : Resumen.t :=
  let usuarios_sin_prefijo := Estado.usuarios_sin_prefijo st in
  let usuarios_con_prefijo := Estado.usuarios_con_prefijo st in
  {| Resumen.total_usuarios := Estado.total_usuarios st;
     Resumen.total_con_telefono := Estado.total_usuarios_con_telefono st;
     Resumen.total_sin_prefijo := Z.of_nat (length usuarios_sin_prefijo);
     Resumen.total_con_prefijo := Z.of_nat (length usuarios_con_prefijo);
     Resumen.porcentaje_sin_prefijo :=
       porcentaje (Z.of_nat (length usuarios_sin_prefijo))
                  (Estado.total_usuarios_con_telefono st);
     Resumen.analisis_temporal :=
       analizar_distribucion_temporal usuarios_sin_prefijo usuarios_con_prefijo |}.

(** The tuple [analizar_archivo_json_streaming] returns. *)
Definition Analisis : Type := list Info.t * list Info.t * Z * option Resumen.t.

Definition analisis_vacio : Analisis := ([], [], 0, None).

(** [archivo_csv] is the content of [ARCHIVO_CSV]; [archivo_json] is the
    sequence of lines the text file [ARCHIVO_ENTRADA] yields, each with its
    line terminator, or [None] when [open] raises. *)
Definition analizar_archivo_json_streaming
    (archivo_csv : option (list Byte.byte)) (archivo_json : option (list str))
    : list mensaje * Analisis :=
  let '(impreso_csv, fechas_registro_csv) := cargar_datos_csv archivo_csv in
  let impreso := MsgAnalizando :: impreso_csv in
  match archivo_json with
  | None => (impreso ++ [MsgErrorProcesarArchivo], analisis_vacio)
  | Some lineas =>
      let primera_linea := strip (default [] (head lineas)) in
      if bool_decide (primera_linea <> u "[") then
        (impreso ++ [MsgNoComienzaConCorchete], analisis_vacio)
      else
        let st := foldl (paso fechas_registro_csv) (estado_inicial impreso) (tail lineas) in
        (Estado.salida st,
         (Estado.usuarios_sin_prefijo st, Estado.usuarios_con_prefijo st,
          Estado.total_usuarios_con_telefono st, Some (resumir st)))
  end.

(** *** The driver, lines 406-429 *)

(** What [guardar_resultados] is given to write. *)
Definition Escritura : Type := list Info.t * list Info.t * Resumen.t.

(** [main]: the messages printed, and either the exception that ends the
    run or the data written to the result files. *)
Definition main (archivo_csv : option (list Byte.byte)) (archivo_json : option (list str))
    : list mensaje * resultado Escritura :=
  let '(impreso, (usuarios_sin_prefijo, usuarios_con_prefijo, total_con_telefono,
                  resultados_analisis)) :=
    analizar_archivo_json_streaming archivo_csv archivo_json in
  let impreso := MsgIniciando :: impreso ++ [MsgResultados] in
  match resultados_analisis with
  | None => (impreso, raise (KeyError (u "total_usuarios")))
  | Some r =>
      (impreso ++
       [MsgTotalProcesados (Resumen.total_usuarios r);
        MsgConTelefono total_con_telefono;
        MsgSinPrefijo (Z.of_nat (length usuarios_sin_prefijo))
                      (Resumen.porcentaje_sin_prefijo r);
        MsgConPrefijo (Z.of_nat (length usuarios_con_prefijo))
                      (cien_menos (Resumen.porcentaje_sin_prefijo r));
        MsgAnalisisTemporal] ++
       map MsgPeriodo (Temporal.datos (Resumen.analisis_temporal r)) ++
       [MsgGuardados; MsgCompletado],
       ret (usuarios_sin_prefijo, usuarios_con_prefijo, r))
  end.

End Clasificador.

(** ** The result writer, lines 358-404 *)

(** A cell handed to [csv.writer.writerow]. *)
Inductive celda : Type :=
  | CeldaStr (s : str)
  | CeldaInt (z : Z)
  | CeldaNum (n : numero).

(** What the four files of a run hold: the two lists and
    [resultados_analisis] as [json.dump] receives them, and the rows of the
    temporal CSV file. *)
Module Archivos.
Record t := mk {
  usuarios_sin_prefijo : list Info.t;
  usuarios_con_prefijo : list Info.t;
  resumen_analisis : option Resumen.t;
  analisis_temporal : list (list celda)
}.
End Archivos.




(** ** The registration index, as the specification words it

    A data line contributes the key [k] with the value [v] when it is not
    blank, its phone field has at least ten digits of which [k] is the last
    ten, and [v] is its date field. *)
Definition aporta `{Entorno} (hostRegister_idx phone_idx : nat) (linea k v : str)
    : Prop :=
  strip linea <> []
  /\ split coma (strip linea) !! hostRegister_idx = Some v
  /\ exists numero_telefono : str,
       split coma (strip linea) !! phone_idx = Some numero_telefono
       /\ (10 <= length (solo_digitos numero_telefono))%nat
       /\ k = ultimos_10 (solo_digitos numero_telefono).

(** The registration-date override of a record: the value of
    [fechaRegistro] in its [custom_attributes], when that is an object with
    that key. *)
Definition fecha_override (usuario : valor) : option valor :=
  match usuario with
  | VDict d =>
      match buscar (u "custom_attributes") d with
      | Some (VDict ca) => buscar (u "fechaRegistro") ca
      | _ => None
      end
  | _ => None
  end.

(** A record whose [custom_attributes], when present, is an object or a
    value of which ['fechaRegistro' in custom_attributes] does not hold. *)
Definition atributos_regulares (usuario : valor) : Prop :=
  match usuario with
  | VDict d =>
      match buscar (u "custom_attributes") d with
      | Some (VDict _) | None => True
      | Some ca => py_in (u "fechaRegistro") ca <> ret true
      end
  | _ => True
  end.

(** Two classified users that differ at most in the registration date and
    the three fields derived from it. *)
Definition igual_salvo_fechas (a b : Info.t) : Prop :=
  Info.phone a = Info.phone b
  /\ Info.phone_limpio a = Info.phone_limpio b
  /\ Info.ultimos_10_digitos a = Info.ultimos_10_digitos b
  /\ Info.phone_length a = Info.phone_length b
  /\ Info.email a = Info.email b
  /\ Info.external_id a = Info.external_id b
  /\ Info.country a = Info.country b
  /\ Info.nombre a = Info.nombre b
  /\ Info.apellido_paterno a = Info.apellido_paterno b
  /\ Info.apellido_materno a = Info.apellido_materno b
  /\ Info.entidad a = Info.entidad b.

(** The texts handed to [procesar_objeto] over a sequence of lines. *)
Fixpoint objetos_de (r : Lector.t) (lineas : list str) : list str :=
  match lineas with
  | [] => []
  | linea :: resto =>
      match leer_linea r linea with
      | (r', Some objeto_json) => objeto_json :: objetos_de r' resto
      | (r', None) => objetos_de r' resto
      end
  end.

(** The users two runs classify from the same objects, and their
    counters. *)
Definition mismo_avance (st1 st2 : Estado.t) : Prop :=
  Estado.lector st1 = Estado.lector st2
  /\ Estado.total_usuarios st1 = Estado.total_usuarios st2
  /\ Estado.total_usuarios_con_telefono st1 = Estado.total_usuarios_con_telefono st2
  /\ Forall2 igual_salvo_fechas (Estado.usuarios_sin_prefijo st1)
                                (Estado.usuarios_sin_prefijo st2)
  /\ Forall2 igual_salvo_fechas (Estado.usuarios_con_prefijo st1)
                                (Estado.usuarios_con_prefijo st2).

(** A text whose parse, if it has one, is such a record. *)
Definition texto_regular `{Entorno} (texto : str) : Prop :=
  forall usuario : valor, json_loads texto = ret usuario -> atributos_regulares usuario.

(** ** Invariant of the analysis loop

    The counters agree with the lists they count. *)
Definition coherente (st : Estado.t) : Prop :=
  Estado.total_usuarios_con_telefono st
  = Z.of_nat (length (Estado.usuarios_sin_prefijo st))
    + Z.of_nat (length (Estado.usuarios_con_prefijo st))
  /\ Estado.total_usuarios_con_telefono st <= Estado.total_usuarios st.

(** ** Invariants of the index and of the reconstructor *)

(** Every key of a registration index is a string of ten digits. *)
Definition claves_de_diez `{Entorno} (m : gmap str str) : Prop :=
  forall k v, m !! k = Some v ->
    length k = 10%nat /\ Forall (fun c => es_digito c = true) k.

(** The buffer of an open object starts with an opening brace, and the
    counter is the number of opening braces of the buffer minus the number
    of closing ones. *)
Definition lector_ok (r : Lector.t) : Prop :=
  Lector.en_objeto r = true ->
  startswith (Lector.objeto_actual r) (u "{") = true
  /\ Lector.llaves_abiertas r
     = count llave_abre (Lector.objeto_actual r)
       - count llave_cierra (Lector.objeto_actual r).

(** [linea'] is [linea] with white space added at both ends. *)
Definition con_espacios (linea linea' : str) : Prop :=
  exists sangria cola : str,
    Forall (fun c => es_espacio c = true) sangria
    /\ Forall (fun c => es_espacio c = true) cola
    /\ linea' = sangria ++ linea ++ cola.

(** ** An environment for worked examples

    ASCII digits, a [json.loads] given by a table from texts to the values
    they denote ([JSONDecodeError] elsewhere), a [strptime] that accepts the
    zero-padded form [dddd-dd-dd dd:dd:dd] in ASCII digits, and a decoder of
    ASCII bytes. *)
Definition es_digito_ascii (c : N) : bool := ((48 <=? c) && (c <=? 57))%N.

Definition json_loads_tabla (tabla : list (str * valor)) (texto : str)
    : resultado valor :=
  match buscar texto tabla with
  | Some v => ret v
  | None => raise JSONDecodeError
  end.

(** The number written by a string of ASCII digits, most significant first. *)
Definition valor_decimal (s : str) : option Z :=
  if forallb es_digito_ascii s
  then Some (foldl (fun acc c => 10 * acc + (Z.of_N c - 48)) 0 s)
  else None.

Definition strptime_estricto (s : str) : option fecha :=
  match s with
  | [y1; y2; y3; y4; g1; m1; m2; g2; d1; d2; e; h1; h2; p1; n1; n2; p2; s1; s2] =>
      if ((g1 =? 45) && (g2 =? 45) && (e =? 32) && (p1 =? 58) && (p2 =? 58))%N then
        match valor_decimal [y1; y2; y3; y4], valor_decimal [m1; m2],
              valor_decimal [d1; d2], valor_decimal [h1; h2],
              valor_decimal [n1; n2], valor_decimal [s1; s2] with
        | Some y, Some m, Some d, Some h, Some n, Some sg =>
            if (1 <=? y) && (1 <=? m) && (m <=? 12) && (1 <=? d) && (d <=? 28)
               && (h <=? 23) && (n <=? 59) && (sg <=? 59)
            then Some {| year := y; month := m |}
            else None
        | _, _, _, _, _, _ => None
        end
      else None
  | _ => None
  end.

Definition decode_ascii (b : list Byte.byte) : str :=
  filter (fun c => (c < 128)%N) (map Byte.to_N b).

Definition entorno_ascii (tabla : list (str * valor)) : Entorno :=
  {| es_digito := es_digito_ascii;
     json_loads := json_loads_tabla tabla;
     strptime := strptime_estricto;
     decode := decode_ascii |}.

(** The bytes of an ASCII literal. *)
Definition bytes_de (s : string) : list Byte.byte := String.list_byte_of_string s.

(** A classified user with the phone [5512345678] and the given period. *)
Definition info_ejemplo (periodo : option str) : Info.t :=
  {| Info.phone := u "5512345678";
     Info.phone_limpio := u "5512345678";
     Info.ultimos_10_digitos := u "5512345678";
     Info.phone_length := 10;
     Info.email := VStr no_disponible;
     Info.external_id := VStr no_disponible;
     Info.country := VStr no_disponible;
     Info.fecha_registro := VStr no_disponible;
     Info.anio_registro := None;
     Info.mes_registro := None;
     Info.periodo := periodo;
     Info.nombre := None;
     Info.apellido_paterno := None;
     Info.apellido_materno := None;
     Info.entidad := None |}.

(** A worked input. The registration file has one row for the phone
    [5215512345678] and one row whose date column reads [No disponible]. *)
Definition csv_ejemplo : list Byte.byte :=
  bytes_de "hostRegister,phone" ++ [Byte.x0a]
  ++ bytes_de "2021-03-04 05:06:07,5215512345678" ++ [Byte.x0a]
  ++ bytes_de "No disponible,+52 55 9876 5432" ++ [Byte.x0a]
  ++ bytes_de "2019-07-08 09:10:11,12345" ++ [Byte.x0a].

(** The same file with one more row, for the phone [5500000000]. *)
Definition csv_ampliado : list Byte.byte :=
  csv_ejemplo ++ bytes_de "2022-01-02 03:04:05,5500000000" ++ [Byte.x0a].

(** The export: four objects, the first over four lines. *)
Definition json_ejemplo : list str :=
  [ u "[";
    u "  {";
    j "    'phone': '15512345678',";
    j "    'email': 'a@x.mx'";
    u "  },";
    j "  {'phone': '55-9876-5432', 'custom_attributes': {'name': 'Ana', 'fechaRegistro': '2020-01-01 00:00:00'}},";
    j "  {'email': 'sin@telefono.mx'},";
    j "  {'phone': '5500000000', 'custom_attributes': 'fechaRegistro'}";
    u "]" ].

Definition usuario_1 : valor :=
  VDict [(u "phone", VStr (u "15512345678")); (u "email", VStr (u "a@x.mx"))].

Definition usuario_2 : valor :=
  VDict [(u "phone", VStr (u "55-9876-5432"));
         (u "custom_attributes",
          VDict [(u "name", VStr (u "Ana"));
                 (u "fechaRegistro", VStr (u "2020-01-01 00:00:00"))])].

Definition usuario_3 : valor := VDict [(u "email", VStr (u "sin@telefono.mx"))].

Definition usuario_4 : valor :=
  VDict [(u "phone", VStr (u "5500000000"));
         (u "custom_attributes", VStr (u "fechaRegistro"))].

(** What [json.loads] gives on the four texts of [json_ejemplo]. *)
Definition tabla_ejemplo : list (str * valor) :=
  [ (j "{'phone': '15512345678','email': 'a@x.mx'}", usuario_1);
    (j "{'phone': '55-9876-5432', 'custom_attributes': {'name': 'Ana', 'fechaRegistro': '2020-01-01 00:00:00'}}",
     usuario_2);
    (j "{'email': 'sin@telefono.mx'}", usuario_3);
    (j "{'phone': '5500000000', 'custom_attributes': 'fechaRegistro'}", usuario_4) ].

Definition entorno_ejemplo : Entorno := entorno_ascii tabla_ejemplo.

(** The export without its last object. *)
Definition json_regular : list str := take 7 json_ejemplo ++ [u "]"].

(** An export with one object whose first line ends in the closing brace
    of a nested object, the same object on one line, and what [json.loads]
    gives on its text (the first line alone is not a JSON text). *)
Definition json_llave_abierta : list str :=
  [ u "[";
    j "{'phone': '5512345678', 'custom_attributes': {}";
    u "}";
    u "]" ].

Definition json_una_linea : list str :=
  [ u "[";
    j "{'phone': '5512345678', 'custom_attributes': {}}";
    u "]" ].

Definition entorno_llave_abierta : Entorno :=
  entorno_ascii
    [ (j "{'phone': '5512345678', 'custom_attributes': {}}",
       VDict [(u "phone", VStr (u "5512345678")); (u "custom_attributes", VDict [])]) ].

(** An object whose phone is a JSON number, with what [json.loads] gives on
    its text, and an object whose phone has five digits. *)
Definition usuario_numerico : valor := VDict [(u "phone", VInt 5512345678)].

Definition entorno_numerico : Entorno :=
  entorno_ascii [ (j "{'phone': 5512345678}", usuario_numerico) ].

Definition usuario_corto : valor := VDict [(u "phone", VStr (u "12345"))].

(** A registration file whose header has neither column. *)
Definition csv_sin_columnas : list Byte.byte :=
  bytes_de "fecha,telefono" ++ [Byte.x0a]
  ++ bytes_de "2021-03-04 05:06:07,5215512345678" ++ [Byte.x0a].

(** The worked export indented by two more spaces, each line ended by a
    carriage return and a line feed. *)
Definition json_crlf : list str :=
  map (fun linea => [32; 32]%N ++ linea ++ [13; 10]%N) json_ejemplo.

(** * Properties *)

Section Propiedades.
Context {E : Entorno}.

(** ** The prefix heuristic *)

Lemma es_numero_mexicano_sin_prefijo_eq (numero : str) :
  es_numero_mexicano_sin_prefijo numero
  = bool_decide (length (solo_digitos numero) = 10%nat).
Proof.
  unfold es_numero_mexicano_sin_prefijo.
  case_bool_decide as Hvacio; [|done].
  subst numero. by rewrite bool_decide_eq_false_2.
Qed.

(** C1: [es_numero_mexicano_sin_prefijo] answers "without prefix" exactly
    when the digits of the phone string are ten; with 0, 9, 11 or 15 digits
    it answers "with prefix"; and two phone strings with the same number of
    digits get the same answer. *)
Theorem sin_prefijo_ssi_diez_digitos (numero : str) :
  (es_numero_mexicano_sin_prefijo numero = true
   <-> length (solo_digitos numero) = 10%nat)
  /\ (length (solo_digitos numero) ∈ [0; 9; 11; 15]%nat
      -> es_numero_mexicano_sin_prefijo numero = false)
  /\ (forall otro : str,
        length (solo_digitos otro) = length (solo_digitos numero)
        -> es_numero_mexicano_sin_prefijo otro
           = es_numero_mexicano_sin_prefijo numero).
Proof.
  rewrite es_numero_mexicano_sin_prefijo_eq. split_and!.
  - apply bool_decide_eq_true.
  - intros Hn. apply bool_decide_eq_false. intros Hdiez.
    rewrite Hdiez, !elem_of_cons, elem_of_nil in Hn. lia.
  - intros otro Higual. rewrite es_numero_mexicano_sin_prefijo_eq.
    by rewrite Higual.
Qed.

End Propiedades.

(** A ten-digit phone with separators is "without prefix"; the same phone
    behind the country code, and a string with no digit, are "with
    prefix". *)
Lemma sin_prefijo_ssi_diez_digitos_witness :
  es_numero_mexicano_sin_prefijo (E := entorno_ascii []) (u "55-1234-5678") = true
  /\ es_numero_mexicano_sin_prefijo (E := entorno_ascii []) (u "n/a") = false
  /\ es_numero_mexicano_sin_prefijo (E := entorno_ascii []) (u "(55) 1234 5678")
     = es_numero_mexicano_sin_prefijo (E := entorno_ascii []) (u "55-1234-5678").
Proof.
  split_and!.
  - apply (sin_prefijo_ssi_diez_digitos (E := entorno_ascii []) (u "55-1234-5678")).
    reflexivity.
  - apply (sin_prefijo_ssi_diez_digitos (E := entorno_ascii []) (u "n/a")).
    vm_compute. constructor.
  - apply (sin_prefijo_ssi_diez_digitos (E := entorno_ascii []) (u "55-1234-5678")).
    reflexivity.
Defined.

(** ** The streaming record reconstructor *)

(** On a line read inside an object (lines 183-207) an object is handed
    over only with balanced braces, after a line ending in a closing brace
    or a closing brace and a comma; the comma is not part of the text handed
    over, and the buffer is reset. *)
Lemma leer_linea_dentro (r r' : Lector.t) (linea objeto_json : str) :
  Lector.en_objeto r = true ->
  leer_linea r linea = (r', Some objeto_json) ->
  Lector.llaves_abiertas r' = 0
  /\ (endswith (strip linea) (u "},") || endswith (strip linea) (u "}")) = true
  /\ objeto_json = sin_coma_final (strip linea) (Lector.objeto_actual r ++ strip linea)
  /\ Lector.objeto_actual r' = [] /\ Lector.en_objeto r' = false.
Proof.
  intros Hen. unfold leer_linea. rewrite Hen. simpl.
  case_bool_decide; [discriminate|].
  destruct (_ =? 0) eqn:Hcero; simpl; [|discriminate].
  destruct (_ || _) eqn:Hfin; simpl; [|discriminate].
  intros [= <- <-]. simpl. apply Z.eqb_eq in Hcero. done.
Qed.

(** On the first line of an object (lines 157-182) the test of line 164
    groups as [(A and B) or C]: a line that opens an object, leaves a brace
    open and ends in a closing brace is handed over as it is. *)
Lemma leer_linea_inicio (r : Lector.t) (linea : str) :
  Lector.en_objeto r = false ->
  strip linea <> [] ->
  startswith (strip linea) (u "{") = true ->
  endswith (strip linea) (u "}") = true ->
  leer_linea r linea
  = ({| Lector.objeto_actual := []; Lector.en_objeto := false;
        Lector.llaves_abiertas :=
          count llave_abre (strip linea) - count llave_cierra (strip linea) |},
     Some (sin_coma_final (strip linea) (strip linea))).
Proof.
  intros Hen Hno Hini Hfin. unfold leer_linea. rewrite Hen, Hini, Hfin. simpl.
  rewrite bool_decide_eq_false_2 by done. by rewrite orb_true_r.
Qed.

(** C2, at the input [json_llave_abierta]: the first line of the object is
    handed to the classifier with one brace still open, and the line that
    closes the object is then skipped; the run counts one object and no user
    with a phone, where the same object written on one line is a user
    without prefix. *)
Theorem entrega_con_llave_abierta :
  let linea := j "{'phone': '5512345678', 'custom_attributes': {}" in
  let r := {| Lector.objeto_actual := []; Lector.en_objeto := false;
              Lector.llaves_abiertas := 1 |} in
  leer_linea lector_inicial linea = (r, Some linea)
  /\ leer_linea r (u "}") = (r, None)
  /\ leer_linea r (u "]") = (r, None)
  /\ objetos_de lector_inicial (tail json_llave_abierta) = [linea]
  /\ (exists resumen,
        analizar_archivo_json_streaming (E := entorno_llave_abierta)
          None (Some json_llave_abierta)
        = ([MsgAnalizando; MsgCargandoCSV; MsgErrorCargarCSV;
            MsgErrorDecodificarJSON linea],
           ([], [], 0, Some resumen))
        /\ Resumen.total_usuarios resumen = 1)
  /\ (exists usuario resumen,
        (analizar_archivo_json_streaming (E := entorno_llave_abierta)
           None (Some json_una_linea)).2
        = ([usuario], [], 1, Some resumen)
        /\ Info.phone usuario = u "5512345678").
Proof.
  split_and!; try (vm_compute; reflexivity).
  - eexists. split; vm_compute; reflexivity.
  - do 2 eexists. split; vm_compute; reflexivity.
Qed.

Section PropiedadesAnalisis.
Context {E : Entorno}.

(** ** The first line of the input *)

(** C3: when the first line, trimmed, is not an opening bracket, the
    analysis prints the error of line 140 and returns two empty lists, zero
    and the empty dictionary; [main] then raises [KeyError] at line 415,
    where it reads [total_usuarios] from that dictionary. *)
Theorem primera_linea_invalida (archivo_csv : option (list Byte.byte))
    (lineas : list str) :
  strip (default [] (head lineas)) <> u "[" ->
  analizar_archivo_json_streaming archivo_csv (Some lineas)
  = (MsgAnalizando :: (cargar_datos_csv archivo_csv).1 ++ [MsgNoComienzaConCorchete],
     ([], [], 0, None))
  /\ (main archivo_csv (Some lineas)).2 = raise (KeyError (u "total_usuarios")).
Proof.
  intros Hprimera.
  assert (analizar_archivo_json_streaming archivo_csv (Some lineas)
          = (MsgAnalizando :: (cargar_datos_csv archivo_csv).1
               ++ [MsgNoComienzaConCorchete], ([], [], 0, None))) as Hvacio.
  { unfold analizar_archivo_json_streaming.
    destruct (cargar_datos_csv archivo_csv) as [impreso fechas]. simpl.
    by rewrite bool_decide_eq_true_2. }
  split; [done|]. unfold main. by rewrite Hvacio.
Qed.

(** ** Objects that cannot be processed *)

(** C4 as amended: an object whose text [json.loads] rejects, or whose
    processing raises, prints one diagnostic (the first 100 characters of
    the text after a [JSONDecodeError], the exception otherwise) and gives no
    result; it adds one to [total_usuarios], leaves
    [total_usuarios_con_telefono] and both lists as they were, and the loop
    goes on with the lines that follow. *)
Theorem objeto_con_error (fechas : gmap str str) (objeto_json : str)
    (e : excepcion) (st : Estado.t) :
  (let* usuario := json_loads objeto_json in procesar_usuario usuario fechas) = raise e ->
  let diagnostico :=
    match e with
    | JSONDecodeError => MsgErrorDecodificarJSON (take 100 objeto_json)
    | _ => MsgErrorProcesarObjeto e
    end in
  let st' := registrar fechas objeto_json st in
  procesar_objeto objeto_json fechas = ([diagnostico], None)
  /\ Estado.total_usuarios st' = Estado.total_usuarios st + 1
  /\ Estado.total_usuarios_con_telefono st' = Estado.total_usuarios_con_telefono st
  /\ Estado.usuarios_sin_prefijo st' = Estado.usuarios_sin_prefijo st
  /\ Estado.usuarios_con_prefijo st' = Estado.usuarios_con_prefijo st
  /\ Estado.salida st' = Estado.salida st ++ [diagnostico]
  /\ Estado.lector st' = Estado.lector st
  /\ (forall (linea : str) (resto : list str) (r : Lector.t),
        leer_linea (Estado.lector st) linea = (r, Some objeto_json) ->
        foldl (paso fechas) st (linea :: resto)
        = foldl (paso fechas) (con_lector r st') resto).
Proof.
  intros Herror diagnostico st'.
  assert (procesar_objeto objeto_json fechas = ([diagnostico], None)) as Hproc.
  { unfold procesar_objeto. rewrite Herror. unfold raise, diagnostico.
    by destruct e. }
  subst st'. unfold registrar. rewrite Hproc. simpl. split_and!; try done.
  intros linea resto r Hleer. unfold paso at 2. rewrite Hleer.
  unfold registrar. rewrite Hproc. done.
Qed.

End PropiedadesAnalisis.

(** A file that starts with an object instead of a bracket. *)
Lemma primera_linea_invalida_witness :
  strip (default [] (head [j "{'phone': '5512345678'}"])) <> u "["
  /\ (main (E := entorno_ascii []) None (Some [j "{'phone': '5512345678'}"])).2
     = raise (KeyError (u "total_usuarios")).
Proof.
  assert (strip (default [] (head [j "{'phone': '5512345678'}"])) <> u "[") as H
    by (vm_compute; discriminate).
  split; [exact H|].
  exact (proj2 (primera_linea_invalida (E := entorno_ascii []) None
                  [j "{'phone': '5512345678'}"] H)).
Defined.

(** C4 as stated fails: the only object of this input has a text that
    [json.loads] rejects, and [total_usuarios] is 1 after it. *)
Lemma total_usuarios_cuenta_objeto_fallido :
  ~ (forall (E : Entorno) (fechas : gmap str str) (objeto_json : str) (st : Estado.t),
       json_loads objeto_json = raise JSONDecodeError ->
       Estado.total_usuarios (registrar fechas objeto_json st) = Estado.total_usuarios st
       /\ Estado.total_usuarios_con_telefono (registrar fechas objeto_json st)
          = Estado.total_usuarios_con_telefono st).
Proof.
  intros Hafirmacion.
  destruct (Hafirmacion (entorno_ascii []) ∅ (j "{'phone': }") (estado_inicial []))
    as [Htotal _]; [reflexivity|].
  vm_compute in Htotal. discriminate.
Qed.

(** The truncated object [{"phone": }] between the brackets. *)
Lemma objeto_con_error_witness :
  (analizar_archivo_json_streaming (E := entorno_ascii []) None
     (Some [u "["; j "{'phone': }"; u "]"])).2
  = ([], [], 0,
     Some {| Resumen.total_usuarios := 1; Resumen.total_con_telefono := 0;
             Resumen.total_sin_prefijo := 0; Resumen.total_con_prefijo := 0;
             Resumen.porcentaje_sin_prefijo := NInt 0;
             Resumen.analisis_temporal :=
               {| Temporal.periodos := []; Temporal.datos := [] |} |})
  /\ procesar_objeto (E := entorno_ascii []) (j "{'phone': }") ∅
     = ([MsgErrorDecodificarJSON (j "{'phone': }")], None).
Proof.
  split; [vm_compute; reflexivity|].
  exact (proj1 (objeto_con_error (E := entorno_ascii []) ∅ (j "{'phone': }")
                  JSONDecodeError (estado_inicial []) eq_refl)).
Defined.

(** ** The temporal aggregator *)

Section Orden.

Lemma str_leb_total (a b : str) : str_leb a b = true \/ str_leb b a = true.
Proof.
  revert b. induction a as [|x a IH]; intros [|y b]; simpl; auto.
  destruct (IH b) as [H|H]; rewrite H;
    destruct (N.ltb_spec x y), (N.ltb_spec y x), (N.eqb_spec x y), (N.eqb_spec y x);
    simpl; auto; lia.
Qed.

Lemma str_leb_trans (a b c : str) :
  str_leb a b = true -> str_leb b c = true -> str_leb a c = true.
Proof.
  revert b c. induction a as [|x a IH]; intros [|y b] [|z c]; simpl; try done.
  rewrite !orb_true_iff, !andb_true_iff, !N.ltb_lt, !N.eqb_eq.
  intros [Hxy|[-> Hab]] [Hyz|[-> Hbc]]; eauto with lia.
Qed.

#[local] Instance str_le_total : Total str_le.
Proof. intros a b. apply str_leb_total. Qed.

#[local] Instance str_le_trans : Transitive str_le.
Proof. intros a b c. apply str_leb_trans. Qed.

Lemma ascendente_estricto (l : list str) :
  StronglySorted str_le l -> NoDup l -> StronglySorted str_lt l.
Proof.
  induction 1 as [|x l Hss IH Hall]; intros Hnd; [constructor|].
  apply NoDup_cons in Hnd as [Hx Hnd].
  constructor; [by apply IH|].
  apply Forall_forall. intros y Hy. split.
  - by eapply Forall_forall in Hall.
  - by intros ->.
Qed.

(** Sorting a list without repetitions gives a strictly ascending list with
    the same elements. *)
Lemma sorted_ascendente (l : list str) :
  NoDup l -> StronglySorted str_lt (sorted l) /\ (forall p, p ∈ sorted l <-> p ∈ l).
Proof.
  intros Hnodup. unfold sorted.
  pose proof (merge_sort_Permutation str_le l) as Hperm.
  split; [|by intros p; rewrite Hperm].
  apply ascendente_estricto.
  - apply (StronglySorted_merge_sort str_le).
  - by rewrite Hperm.
Qed.

End Orden.

Section Conteo.

(** The number of users of a list whose period is [p]. *)
Local Abbreviation cuenta p l :=
  (Z.of_nat (length (filter (fun usr : Info.t => Info.periodo usr = Some p) l))).

Lemma contar_periodo_foldl (l : list Info.t) (m : gmap str Z) (p : str) :
  default 0 (foldl contar_periodo m l !! p) = default 0 (m !! p) + cuenta p l
  /\ (is_Some (foldl contar_periodo m l !! p)
      <-> is_Some (m !! p) \/ exists usr, usr ∈ l /\ Info.periodo usr = Some p).
Proof.
  revert m. induction l as [|usr l IH]; intros m; simpl.
  - split; [lia|]. split; [auto|]. intros [?|(? & []%elem_of_nil & _)]; done.
  - destruct (IH (contar_periodo m usr)) as [IHc IHs]. rewrite IHc, IHs. clear IH IHc IHs.
    unfold contar_periodo. rewrite filter_cons.
    destruct (Info.periodo usr) as [q|] eqn:Hq.
    + destruct (decide (q = p)) as [->|Hne].
      * rewrite lookup_insert_eq, decide_True by done. simpl. split; [lia|].
        split; [intros _; right; exists usr; split; [left|done]|eauto].
      * rewrite lookup_insert_ne by done.
        rewrite decide_False by congruence. split; [done|].
        split.
        -- intros [?|(x & Hx & Hp)]; [by left|]. right. exists x. split; [by right|done].
        -- intros [?|(x & Hx & Hp)]; [by left|].
           apply elem_of_cons in Hx as [->|Hx]; [congruence|]. right. eauto.
    + rewrite decide_False by done. split; [done|].
      split.
      * intros [?|(x & Hx & Hp)]; [by left|]. right. exists x. split; [by right|done].
      * intros [?|(x & Hx & Hp)]; [by left|].
        apply elem_of_cons in Hx as [->|Hx]; [congruence|]. right. eauto.
Qed.

(** C5: the aggregator lists the periods of either list in strictly
    ascending order of code points, and gives for each one the number of
    users with that period in each list, their sum, and the two percentages
    [round(count / total * 100, 2)]; users without [periodo] are in no count.
    Every total is positive; with a zero total the percentage expression
    gives zero; and 3 against 7 give 30.0 and 70.0. *)
Theorem distribucion_temporal (sin con : list Info.t) :
  let a := analizar_distribucion_temporal sin con in
  StronglySorted str_lt (Temporal.periodos a)
  /\ (forall p : str,
        p ∈ Temporal.periodos a
        <-> exists usr, (usr ∈ sin \/ usr ∈ con) /\ Info.periodo usr = Some p)
  /\ Temporal.datos a
     = map (fun p =>
              {| Bucket.periodo := p;
                 Bucket.sin_prefijo := cuenta p sin;
                 Bucket.con_prefijo := cuenta p con;
                 Bucket.total := cuenta p sin + cuenta p con;
                 Bucket.porcentaje_sin_prefijo :=
                   porcentaje (cuenta p sin) (cuenta p sin + cuenta p con);
                 Bucket.porcentaje_con_prefijo :=
                   porcentaje (cuenta p con) (cuenta p sin + cuenta p con) |})
           (Temporal.periodos a)
  /\ Forall (fun b => 0 < Bucket.total b) (Temporal.datos a)
  /\ (forall parte total : Z,
        porcentaje parte total
        = if 0 <? total
          then NFloat (py_round2 (py_truediv parte total * 100)%float)
          else NInt 0)
  /\ (forall parte : Z, numero_igual (porcentaje parte 0) (NFloat 0%float) = true)
  /\ porcentaje 3 (3 + 7) = NFloat 30%float
  /\ porcentaje 7 (3 + 7) = NFloat 70%float.
Proof.
  intros a. subst a. unfold analizar_distribucion_temporal. simpl.
  set (ps := foldl contar_periodo ∅ sin). set (pc := foldl contar_periodo ∅ con).
  destruct (sorted_ascendente (elements (dom ps ∪ dom pc))) as [Hasc Hel];
    [apply NoDup_elements|].
  assert (forall p, default 0 (ps !! p) = cuenta p sin) as Hps.
  { intros p. subst ps. rewrite (proj1 (contar_periodo_foldl sin ∅ p)).
    by rewrite lookup_empty. }
  assert (forall p, default 0 (pc !! p) = cuenta p con) as Hpc.
  { intros p. subst pc. rewrite (proj1 (contar_periodo_foldl con ∅ p)).
    by rewrite lookup_empty. }
  split_and!; try done.
  - intros p. rewrite Hel, elem_of_elements, elem_of_union, !elem_of_dom.
    subst ps pc.
    rewrite (proj2 (contar_periodo_foldl sin ∅ p)), (proj2 (contar_periodo_foldl con ∅ p)).
    rewrite lookup_empty. split.
    + intros [[[? [=]]|(x & ? & ?)]|[[? [=]]|(x & ? & ?)]]; exists x; auto.
    + intros (x & [?|?] & ?); [left|right]; right; eauto.
  - apply map_ext. intros p. by rewrite Hps, Hpc.
  - apply Forall_map, Forall_forall. intros p Hp. simpl. rewrite Hps, Hpc.
    apply Hel, elem_of_elements, elem_of_union in Hp. rewrite !elem_of_dom in Hp.
    subst ps pc.
    rewrite (proj2 (contar_periodo_foldl sin ∅ p)),
            (proj2 (contar_periodo_foldl con ∅ p)), lookup_empty in Hp.
    assert (forall l : list Info.t,
              (exists usr, usr ∈ l /\ Info.periodo usr = Some p) -> 0 < cuenta p l)
      as Hpositiva.
    { intros l (usr & Hin & Hper).
      assert (usr ∈ filter (fun usr : Info.t => Info.periodo usr = Some p) l) as Hf
        by (by apply list_elem_of_filter).
      destruct (filter _ l); [by apply elem_of_nil in Hf|simpl; lia]. }
    destruct Hp as [[[? [=]]|Hp]|[[? [=]]|Hp]]; apply Hpositiva in Hp; lia.
Qed.

End Conteo.

(** Three users without prefix and seven with prefix registered in
    [2024-01], and one more without [periodo]. *)
Lemma distribucion_temporal_witness :
  u "2024-01" ∈ Temporal.periodos
      (analizar_distribucion_temporal
         (info_ejemplo None :: replicate 3 (info_ejemplo (Some (u "2024-01"))))
         (replicate 7 (info_ejemplo (Some (u "2024-01")))))
  /\ Temporal.datos
       (analizar_distribucion_temporal
          (info_ejemplo None :: replicate 3 (info_ejemplo (Some (u "2024-01"))))
          (replicate 7 (info_ejemplo (Some (u "2024-01")))))
     = [ {| Bucket.periodo := u "2024-01";
            Bucket.sin_prefijo := 3; Bucket.con_prefijo := 7; Bucket.total := 10;
            Bucket.porcentaje_sin_prefijo := NFloat 30%float;
            Bucket.porcentaje_con_prefijo := NFloat 70%float |} ].
Proof.
  split; [|vm_compute; reflexivity].
  apply (distribucion_temporal
           (info_ejemplo None :: replicate 3 (info_ejemplo (Some (u "2024-01"))))
           (replicate 7 (info_ejemplo (Some (u "2024-01"))))).
  exists (info_ejemplo (Some (u "2024-01"))). split; [|reflexivity].
  right. simpl. left.
Defined.

(** ** The counters of a run *)

Section Totales.
Context {E : Entorno}.

(** A classified object joins exactly one list and is counted once; any
    other object is counted in [total_usuarios] alone. *)
Lemma registrar_una_lista (fechas : gmap str str) (objeto_json : str) (st : Estado.t) :
  let st' := registrar fechas objeto_json st in
  Estado.total_usuarios st' = Estado.total_usuarios st + 1
  /\ match (procesar_objeto objeto_json fechas).2 with
     | Some r =>
         Estado.total_usuarios_con_telefono st'
         = Estado.total_usuarios_con_telefono st + 1
         /\ (Estado.usuarios_sin_prefijo st'
             = Estado.usuarios_sin_prefijo st ++ [Procesado.info r]
             /\ Estado.usuarios_con_prefijo st' = Estado.usuarios_con_prefijo st
             /\ Procesado.sin_prefijo r = true
             \/ Estado.usuarios_sin_prefijo st' = Estado.usuarios_sin_prefijo st
                /\ Estado.usuarios_con_prefijo st'
                   = Estado.usuarios_con_prefijo st ++ [Procesado.info r]
                /\ Procesado.sin_prefijo r = false)
     | None =>
         Estado.total_usuarios_con_telefono st' = Estado.total_usuarios_con_telefono st
         /\ Estado.usuarios_sin_prefijo st' = Estado.usuarios_sin_prefijo st
         /\ Estado.usuarios_con_prefijo st' = Estado.usuarios_con_prefijo st
     end.
Proof.
  unfold registrar. destruct (procesar_objeto objeto_json fechas) as [impreso [r|]];
    simpl; [|done].
  split; [done|]. split; [done|]. destruct (Procesado.sin_prefijo r); auto.
Qed.

Lemma registrar_coherente (fechas : gmap str str) (objeto_json : str) (st : Estado.t) :
  coherente st -> coherente (registrar fechas objeto_json st).
Proof.
  unfold coherente. intros [Hsuma Hmenor].
  destruct (registrar_una_lista fechas objeto_json st) as [Htotal Hcaso].
  destruct (procesar_objeto objeto_json fechas).2 as [r|].
  - destruct Hcaso as [Hcon [(-> & -> & _)|(-> & -> & _)]];
      rewrite Htotal, Hcon, length_app; simpl; lia.
  - destruct Hcaso as (-> & -> & ->). lia.
Qed.

Lemma paso_coherente (fechas : gmap str str) (st : Estado.t) (linea : str) :
  coherente st -> coherente (paso fechas st linea).
Proof.
  intros Hst. unfold paso.
  destruct (leer_linea (Estado.lector st) linea) as [r [objeto_json|]]; [|done].
  by apply registrar_coherente.
Qed.

Lemma bucle_coherente (fechas : gmap str str) (lineas : list str) (st : Estado.t) :
  coherente st -> coherente (foldl (paso fechas) st lineas).
Proof.
  revert st. induction lineas as [|linea lineas IH]; intros st Hst; simpl; [done|].
  by apply IH, paso_coherente.
Qed.

(** What a run returns, in terms of its final state. *)
Lemma analizar_casos (archivo_csv : option (list Byte.byte))
    (archivo_json : option (list str)) :
  (analizar_archivo_json_streaming archivo_csv archivo_json).2 = analisis_vacio
  \/ exists st : Estado.t,
       coherente st
       /\ (analizar_archivo_json_streaming archivo_csv archivo_json).2
          = (Estado.usuarios_sin_prefijo st, Estado.usuarios_con_prefijo st,
             Estado.total_usuarios_con_telefono st, Some (resumir st)).
Proof.
  unfold analizar_archivo_json_streaming.
  destruct (cargar_datos_csv archivo_csv) as [impreso fechas].
  destruct archivo_json as [lineas|]; [|by left].
  case_bool_decide; [by left|]. right. eexists. split; [|done].
  apply bucle_coherente. unfold coherente. simpl. lia.
Qed.

(** C9: in what a run returns, the count of users with a phone is the sum
    of the lengths of the two lists; when the run returns a summary, its
    [total_con_telefono], [total_sin_prefijo] and [total_con_prefijo] are
    that count and those lengths, and [total_usuarios] is at least
    [total_con_telefono]. *)
Theorem totales_coherentes (archivo_csv : option (list Byte.byte))
    (archivo_json : option (list str)) :
  let a := (analizar_archivo_json_streaming archivo_csv archivo_json).2 in
  let usuarios_sin_prefijo := a.1.1.1 in
  let usuarios_con_prefijo := a.1.1.2 in
  let total_con_telefono := a.1.2 in
  total_con_telefono
  = Z.of_nat (length usuarios_sin_prefijo) + Z.of_nat (length usuarios_con_prefijo)
  /\ match a.2 with
     | Some r =>
         Resumen.total_con_telefono r = total_con_telefono
         /\ Resumen.total_sin_prefijo r = Z.of_nat (length usuarios_sin_prefijo)
         /\ Resumen.total_con_prefijo r = Z.of_nat (length usuarios_con_prefijo)
         /\ Resumen.total_con_telefono r
            = Resumen.total_sin_prefijo r + Resumen.total_con_prefijo r
         /\ Resumen.total_usuarios r >= Resumen.total_con_telefono r
     | None => True
     end.
Proof.
  destruct (analizar_casos archivo_csv archivo_json) as [->|(st & [Hsuma Hmenor] & ->)];
    simpl; [done|].
  split_and!; try done. lia.
Qed.

(** C6: the summary's [porcentaje_sin_prefijo] is
    [round(total_sin_prefijo / total_con_telefono * 100, 2)] when
    [total_con_telefono] is positive and [0] when it is zero. *)
Theorem porcentaje_del_resumen (archivo_csv : option (list Byte.byte))
    (archivo_json : option (list str)) (r : Resumen.t) :
  (analizar_archivo_json_streaming archivo_csv archivo_json).2.2 = Some r ->
  (0 < Resumen.total_con_telefono r ->
   Resumen.porcentaje_sin_prefijo r
   = NFloat (py_round2 (py_truediv (Resumen.total_sin_prefijo r)
                                   (Resumen.total_con_telefono r) * 100)%float))
  /\ (Resumen.total_con_telefono r = 0 -> Resumen.porcentaje_sin_prefijo r = NInt 0).
Proof.
  destruct (analizar_casos archivo_csv archivo_json) as [->|(st & _ & ->)];
    simpl; [done|].
  intros [= <-]. unfold resumir, porcentaje. simpl. split.
  - intros Hpos. apply Z.ltb_lt in Hpos. by rewrite Hpos.
  - by intros ->.
Qed.

End Totales.

(** On the worked input one user of two with a phone has no prefix: 50.0;
    with no object at all the percentage is [0]. *)
Lemma porcentaje_del_resumen_witness :
  (exists r,
     (analizar_archivo_json_streaming (E := entorno_ejemplo)
        (Some csv_ejemplo) (Some json_ejemplo)).2.2 = Some r
     /\ Resumen.total_sin_prefijo r = 1 /\ Resumen.total_con_telefono r = 2
     /\ Resumen.porcentaje_sin_prefijo r = NFloat 50%float)
  /\ (exists r,
        (analizar_archivo_json_streaming (E := entorno_ejemplo)
           (Some csv_ejemplo) (Some [u "["; u "]"])).2.2 = Some r
        /\ Resumen.total_con_telefono r = 0
        /\ Resumen.porcentaje_sin_prefijo r = NInt 0).
Proof.
  split.
  - destruct (analizar_archivo_json_streaming (E := entorno_ejemplo)
                (Some csv_ejemplo) (Some json_ejemplo)).2.2 as [r|] eqn:Hr;
      [|vm_compute in Hr; discriminate].
    destruct (porcentaje_del_resumen (E := entorno_ejemplo)
                (Some csv_ejemplo) (Some json_ejemplo) r Hr) as [Hpositivo _].
    vm_compute in Hr. injection Hr as <-.
    eexists. split; [reflexivity|].
    split; [reflexivity|]. split; [reflexivity|].
    etrans; [apply Hpositivo; reflexivity|]. vm_compute. reflexivity.
  - destruct (analizar_archivo_json_streaming (E := entorno_ejemplo)
                (Some csv_ejemplo) (Some [u "["; u "]"])).2.2 as [r|] eqn:Hr;
      [|vm_compute in Hr; discriminate].
    destruct (porcentaje_del_resumen (E := entorno_ejemplo)
                (Some csv_ejemplo) (Some [u "["; u "]"]) r Hr) as [_ Hcero].
    vm_compute in Hr. injection Hr as <-.
    eexists. split; [reflexivity|]. split; [reflexivity|].
    apply Hcero. reflexivity.
Defined.

(** ** The registration index *)

(** The last element of a list with a property: what one more element
    changes. *)
Lemma ultimo_snoc {A : Type} (P Q : A -> Prop) (l : list A) (x : A) :
  (exists antes y despues, l ++ [x] = antes ++ y :: despues /\ P y /\ Forall Q despues)
  <-> P x
      \/ Q x /\ exists antes y despues, l = antes ++ y :: despues /\ P y /\ Forall Q despues.
Proof.
  split.
  - intros (antes & y & despues & Heq & Hy & Hdespues).
    destruct despues as [|z despues _] using rev_ind.
    + apply app_inj_tail in Heq as [_ <-]. by left.
    + rewrite app_comm_cons, app_assoc in Heq. apply app_inj_tail in Heq as [-> <-].
      apply Forall_app in Hdespues as [Hdespues Hx]. rewrite Forall_singleton in Hx.
      right. split; [done|]. by exists antes, y, despues.
  - intros [Hx|[Hx (antes & y & despues & -> & Hy & Hdespues)]].
    + exists l, x, []. by rewrite Forall_nil.
    + exists antes, y, (despues ++ [x]). rewrite <-app_assoc. split; [done|].
      split; [done|]. apply Forall_app. by rewrite Forall_singleton.
Qed.

Section Indice.
Context {E : Entorno}.

Lemma index_en_lista (x : str) (l : list str) (i : nat) :
  index x l = Some i -> en_lista x l = true.
Proof.
  unfold en_lista. intros Hi. apply bool_decide_eq_true.
  revert i Hi. induction l as [|y l IH]; intros i; simpl; [done|].
  case_bool_decide as Hy; [subst; left|].
  destruct (index x l) eqn:Hidx; [|done]. right. by eapply IH.
Qed.

Lemma aporta_funcional (h p : nat) (linea k v k' v' : str) :
  aporta h p linea k v -> aporta h p linea k' v' -> k = k' /\ v = v'.
Proof.
  intros (_ & Hv & tel & Htel & _ & ->) (_ & Hv' & tel' & Htel' & _ & ->).
  split; congruence.
Qed.

(** One data line either writes what it contributes or leaves the index
    as it was. *)
Lemma cargar_linea_casos (h p : nat) (m : gmap str str) (linea : str) :
  (exists k v, aporta h p linea k v /\ cargar_linea h p m linea = <[k:=v]> m)
  \/ (forall k v, ~ aporta h p linea k v) /\ cargar_linea h p m linea = m.
Proof.
  unfold cargar_linea. case_bool_decide as Hvacia.
  { right. split; [|done]. by intros k v [? _]. }
  destruct (Nat.leb_spec (Nat.max h p + 1) (length (split coma (strip linea))))
    as [Hlargo|Hcorta].
  - destruct (lookup_lt_is_Some_2 (split coma (strip linea)) h) as [fecha Hfecha]; [lia|].
    destruct (lookup_lt_is_Some_2 (split coma (strip linea)) p) as [tel Htel]; [lia|].
    rewrite Hfecha, Htel.
    destruct (Nat.leb_spec 10 (length (solo_digitos tel))) as [Hdiez|Hmenos].
    + left. exists (ultimos_10 (solo_digitos tel)), fecha. split; [|done].
      split; [done|]. split; [done|]. by exists tel.
    + right. split; [|done]. intros k v (_ & _ & tel' & Htel' & Hdiez & _).
      rewrite Htel in Htel'. injection Htel' as <-. lia.
  - right. split; [|done]. intros k v (_ & Hv & tel & Htel & _).
    apply lookup_lt_Some in Hv, Htel. lia.
Qed.

(** After the data lines, a key holds the value of the last line that
    contributes it. *)
Lemma cargar_lineas_lookup (h p : nat) (datos : list str) (m : gmap str str)
    (k v : str) :
  foldl (cargar_linea h p) m datos !! k = Some v
  <-> (exists antes linea despues,
         datos = antes ++ linea :: despues
         /\ aporta h p linea k v
         /\ Forall (fun l' => forall v', ~ aporta h p l' k v') despues)
      \/ (m !! k = Some v /\ Forall (fun l' => forall v', ~ aporta h p l' k v') datos).
Proof.
  induction datos as [|linea datos IH] using rev_ind.
  - simpl. rewrite Forall_nil. split; [auto|].
    intros [(antes & linea & despues & Habs & _)|[Hm _]]; [by destruct antes|done].
  - rewrite foldl_app, ultimo_snoc, Forall_app, Forall_singleton. simpl.
    destruct (cargar_linea_casos h p (foldl (cargar_linea h p) m datos) linea)
      as [(k' & v' & Hap & ->)|[Hno ->]].
    + pose proof (aporta_funcional h p linea k' v') as Hfun.
      destruct (decide (k' = k)) as [->|Hne].
      * rewrite lookup_insert_eq. naive_solver.
      * rewrite lookup_insert_ne, IH by done. naive_solver.
    + rewrite IH. naive_solver.
Qed.

Lemma solo_digitos_ascii (s : str) :
  digitos_ascii E -> Forall (fun c => (48 <= c <= 57)%N) s -> solo_digitos s = s.
Proof.
  intros Hascii Hs. unfold solo_digitos.
  induction Hs as [|c s Hc Hs IH]; [done|].
  rewrite filter_cons, IH. rewrite decide_True; [done|].
  rewrite Hascii by lia. apply andb_true_iff. split; apply N.leb_le; lia.
Qed.

End Indice.

(** ** The record classifier *)

Section Registro.
Context {E : Entorno}.

Lemma atributo_VDict (cad : list (str * valor)) (k : str) :
  atributo (VDict cad) k = ret (buscar k cad).
Proof.
  unfold atributo. simpl. by destruct (buscar k cad) as [v|].
Qed.

Lemma atributo_no_objeto (ca : valor) (k : str) (x : option valor) :
  (forall cad, ca <> VDict cad) -> atributo ca k = ret x ->
  x = None /\ py_in k ca = ret false.
Proof.
  intros Hno. unfold atributo.
  destruct ca as [| | | | s | l | cad]; simpl; try discriminate.
  - destruct (subcadena k s); simpl; [discriminate|]. by intros [= <-].
  - destruct (existsb _ l); simpl; [discriminate|]. by intros [= <-].
  - by destruct (Hno cad).
Qed.

Lemma copiar_atributos_VDict cad f :
  copiar_atributos (VDict cad) f
  = ret (buscar (u "name") cad, buscar (u "paternal") cad, buscar (u "maternal") cad,
         buscar (u "entity") cad,
         match buscar (u "fechaRegistro") cad with
         | Some v => if bool_decide (f = no_disponible) then v else VStr f
         | None => VStr f
         end).
Proof.
  unfold copiar_atributos. rewrite !atributo_VDict. simpl.
  destruct (buscar (u "fechaRegistro") cad) as [v|]; simpl; [|done].
  by case_bool_decide.
Qed.

Lemma copiar_atributos_no_objeto ca f x :
  (forall cad, ca <> VDict cad) ->
  copiar_atributos ca f = ret x -> x = (None, None, None, None, VStr f).
Proof.
  intros Hno. unfold copiar_atributos.
  destruct (atributo ca (u "name")) as [?|n] eqn:Hn; [discriminate|].
  destruct (atributo ca (u "paternal")) as [?|p] eqn:Hp; [discriminate|].
  destruct (atributo ca (u "maternal")) as [?|m] eqn:Hm; [discriminate|].
  destruct (atributo ca (u "entity")) as [?|e] eqn:He; [discriminate|].
  apply atributo_no_objeto in Hn as [-> _], Hp as [-> _], Hm as [-> _], He as [-> _];
    try done.
  cbn [bind].
  destruct (py_in (u "fechaRegistro") ca) as [?|[]] eqn:Hin; cbn [bind andb];
    try discriminate.
  - case_bool_decide; [|by intros [= <-]].
    destruct ca; try discriminate. by destruct (Hno d).
  - by intros [= <-].
Qed.

Lemma procesar_usuario_no_objeto (usuario : valor) (fechas : gmap str str) :
  (forall d, usuario <> VDict d) ->
  procesar_usuario usuario fechas = ret None
  \/ procesar_usuario usuario fechas = raise TypeError.
Proof.
  intros Hno. unfold procesar_usuario.
  destruct usuario as [| | | | s | l | d]; simpl; auto.
  - destruct (subcadena _ s); simpl; auto.
  - destruct (existsb _ l); simpl; auto.
  - by destruct (Hno d).
Qed.

Lemma procesar_usuario_objeto (d : list (str * valor)) (fechas : gmap str str) :
  procesar_usuario (VDict d) fechas
  = match buscar (u "phone") d with
    | Some telefono =>
        if py_bool telefono then
          let* phone := como_str telefono in
          let numero_limpio := solo_digitos phone in
          let ultimos_10_digitos :=
            if (10 <=? length numero_limpio)%nat then ultimos_10 numero_limpio
            else numero_limpio in
          let fecha_csv := default no_disponible (fechas !! ultimos_10_digitos) in
          let fecha_obj := fechas !! ultimos_10_digitos ≫= strptime in
          let* extras :=
            match buscar (u "custom_attributes") d with
            | Some ca => copiar_atributos ca fecha_csv
            | None => ret (None, None, None, None, VStr fecha_csv)
            end in
          ret (Some {|
            Procesado.sin_prefijo := es_numero_mexicano_sin_prefijo phone;
            Procesado.info := {|
              Info.phone := phone;
              Info.phone_limpio := numero_limpio;
              Info.ultimos_10_digitos := ultimos_10_digitos;
              Info.phone_length := Z.of_nat (length numero_limpio);
              Info.email := default (VStr no_disponible) (buscar (u "email") d);
              Info.external_id := default (VStr no_disponible) (buscar (u "external_id") d);
              Info.country := default (VStr no_disponible) (buscar (u "country") d);
              Info.fecha_registro := extras.2;
              Info.anio_registro := year <$> fecha_obj;
              Info.mes_registro := month <$> fecha_obj;
              Info.periodo :=
                (fun f => str_de_int (year f) ++ u "-" ++ formato_02d (month f))
                  <$> fecha_obj;
              Info.nombre := extras.1.1.1.1;
              Info.apellido_paterno := extras.1.1.1.2;
              Info.apellido_materno := extras.1.1.2;
              Info.entidad := extras.1.2
            |}
          |})
        else ret None
    | None => ret None
    end.
Proof.
  unfold procesar_usuario. simpl.
  destruct (buscar (u "phone") d) as [telefono|]; simpl; [|done].
  destruct (py_bool telefono); simpl; [|done].
  destruct (como_str telefono) as [e|phone]; simpl; [done|].
  destruct (buscar (u "custom_attributes") d) as [ca|]; simpl; [|done].
  destruct (copiar_atributos ca _) as [e|[[[[n p] m] en] fr]]; simpl; done.
Qed.

(** The format of a period. *)
Lemma formato_periodo (y m : Z) :
  1000 <= y <= 9999 -> 1 <= m <= 12 ->
  length (str_de_int y) = 4%nat /\ valor_decimal (str_de_int y) = Some y
  /\ length (formato_02d m) = 2%nat /\ valor_decimal (formato_02d m) = Some m.
Proof.
  intros Hy Hm.
  assert (forallb (fun y => bool_decide (length (str_de_int y) = 4%nat
                                         /\ valor_decimal (str_de_int y) = Some y))
            (seqZ 1000 9000) = true) as Hanios by (vm_compute; reflexivity).
  assert (forallb (fun m => bool_decide (length (formato_02d m) = 2%nat
                                         /\ valor_decimal (formato_02d m) = Some m))
            (seqZ 1 12) = true) as Hmeses by (vm_compute; reflexivity).
  rewrite forallb_forall in Hanios, Hmeses.
  specialize (Hanios y). specialize (Hmeses m).
  rewrite bool_decide_eq_true in Hanios, Hmeses.
  destruct Hanios as [? ?]; [apply list_elem_of_In, elem_of_seqZ; lia|].
  destruct Hmeses as [? ?]; [apply list_elem_of_In, elem_of_seqZ; lia|].
  done.
Qed.

Lemma procesar_usuario_clasifica (usuario : valor) (fechas : gmap str str)
    (r : Procesado.t) :
  procesar_usuario usuario fechas = ret (Some r) ->
  exists (d : list (str * valor)) (phone : str),
    usuario = VDict d /\ buscar (u "phone") d = Some (VStr phone)
    /\ Procesado.sin_prefijo r = es_numero_mexicano_sin_prefijo phone
    /\ Info.phone (Procesado.info r) = phone
    /\ let i := Procesado.info r in
       let encontrada := fechas !! Info.ultimos_10_digitos i in
       Info.anio_registro i = year <$> (encontrada ≫= strptime)
       /\ Info.mes_registro i = month <$> (encontrada ≫= strptime)
       /\ Info.periodo i
          = (fun f => str_de_int (year f) ++ u "-" ++ formato_02d (month f))
              <$> (encontrada ≫= strptime)
       /\ Info.fecha_registro i
          = match fecha_override usuario with
            | Some v =>
                if bool_decide (default no_disponible encontrada = no_disponible)
                then v else VStr (default no_disponible encontrada)
            | None => VStr (default no_disponible encontrada)
            end.
Proof.
  intros Hr.
  destruct usuario as [| | | | s | l | d];
    try (by edestruct (procesar_usuario_no_objeto) as [H|H];
         [|rewrite H in Hr; discriminate|rewrite H in Hr; discriminate]).
  rewrite procesar_usuario_objeto in Hr.
  destruct (buscar (u "phone") d) as [telefono|] eqn:Htel; [|discriminate].
  destruct (py_bool telefono); [|discriminate].
  destruct telefono as [| | | | phone | |]; try discriminate.
  cbn [como_str bind ret] in Hr.
  exists d, phone. split; [done|]. split; [done|].
  unfold fecha_override.
  destruct (buscar (u "custom_attributes") d) as [ca|].
  - destruct (copiar_atributos ca _) as [e|x] eqn:Hca; [discriminate|].
    cbn [bind ret] in Hr. injection Hr as <-. cbn.
    split_and!; try done.
    destruct ca as [| | | | | |cad];
      try (by apply copiar_atributos_no_objeto in Hca as ->).
    rewrite copiar_atributos_VDict in Hca. by injection Hca as <-.
  - cbn [bind ret] in Hr. injection Hr as <-. cbn. done.
Qed.

(** A record is classified when its text parses and the body of
    [procesar_objeto] returns it. *)
Lemma procesar_objeto_clasifica (objeto_json : str) (fechas : gmap str str)
    (r : Procesado.t) :
  (procesar_objeto objeto_json fechas).2 = Some r
  <-> exists usuario : valor,
        json_loads objeto_json = ret usuario
        /\ procesar_usuario usuario fechas = ret (Some r).
Proof.
  unfold procesar_objeto.
  destruct (json_loads objeto_json) as [e|usuario]; cbn [bind].
  - split; [by destruct e|]. by intros (usuario & [=] & _).
  - split.
    + intros Hr. exists usuario. split; [done|].
      destruct (procesar_usuario usuario fechas) as [e|[r'|]]; simpl in Hr.
      * by destruct e.
      * by injection Hr as <-.
      * done.
    + intros (usuario' & [= <-] & ->). done.
Qed.

(** C8 as amended: for a classified record, when the index has a date for
    its last ten digits and [strptime] accepts that date, [anio_registro] and
    [mes_registro] are its year and month and [periodo] is the year, a
    hyphen and the month on two digits (four digits, hyphen, two digits for
    a year of four digits); when [strptime] rejects the date, or the index
    has no date, the record has none of the three fields, whatever
    [custom_attributes] holds. [fecha_registro] is the date of the index
    when there is one other than ['No disponible']; otherwise it is the
    [fechaRegistro] of [custom_attributes] when there is one, and
    ['No disponible'] when there is none. *)
Theorem fechas_del_clasificado (usuario : valor) (fechas : gmap str str)
    (r : Procesado.t) :
  procesar_usuario usuario fechas = ret (Some r) ->
  let i := Procesado.info r in
  let encontrada := fechas !! Info.ultimos_10_digitos i in
  (forall (f : str) (d : fecha),
     encontrada = Some f -> strptime f = Some d ->
     Info.anio_registro i = Some (year d)
     /\ Info.mes_registro i = Some (month d)
     /\ Info.periodo i = Some (str_de_int (year d) ++ u "-" ++ formato_02d (month d))
     /\ (1000 <= year d <= 9999 -> 1 <= month d <= 12 ->
         length (str_de_int (year d)) = 4%nat
         /\ valor_decimal (str_de_int (year d)) = Some (year d)
         /\ length (formato_02d (month d)) = 2%nat
         /\ valor_decimal (formato_02d (month d)) = Some (month d)))
  /\ (forall f : str,
        encontrada = Some f -> strptime f = None ->
        Info.anio_registro i = None /\ Info.mes_registro i = None
        /\ Info.periodo i = None)
  /\ (encontrada = None ->
      Info.anio_registro i = None /\ Info.mes_registro i = None
      /\ Info.periodo i = None)
  /\ (forall f : str,
        encontrada = Some f -> f <> no_disponible ->
        Info.fecha_registro i = VStr f)
  /\ (encontrada = None \/ encontrada = Some no_disponible ->
      Info.fecha_registro i = default (VStr no_disponible) (fecha_override usuario)).
Proof.
  intros Hr i encontrada.
  destruct (procesar_usuario_clasifica usuario fechas r Hr)
    as (d & phone & _ & _ & _ & _ & Hanio & Hmes & Hperiodo & Hfecha).
  fold i in Hanio, Hmes, Hperiodo, Hfecha.
  fold encontrada in Hanio, Hmes, Hperiodo, Hfecha.
  rewrite Hanio, Hmes, Hperiodo, Hfecha. clear Hanio Hmes Hperiodo Hfecha.
  split_and!.
  - intros f fd -> Hfd. simpl. rewrite Hfd. simpl. split_and!; try done.
    apply formato_periodo.
  - intros f -> Hf. simpl. by rewrite Hf.
  - by intros ->.
  - intros f -> Hf. change (default no_disponible (Some f)) with f.
    rewrite bool_decide_eq_false_2 by done.
    by destruct (fecha_override usuario).
  - intros [-> | ->];
      [change (default no_disponible None) with no_disponible
      |change (default no_disponible (Some no_disponible)) with no_disponible];
      rewrite bool_decide_eq_true_2 by done;
      by destruct (fecha_override usuario).
Qed.

End Registro.

(** ** The index and the classifier together *)

Section Union.
Context {E : Entorno}.

(** C7: after the header, the index maps a key to a value exactly when some
    data line contributes them (a line that is not blank, whose phone field
    has at least ten digits, the key being the last ten and the value the
    date field as it stands) and no later line contributes the same key; a
    line whose phone field has fewer than ten digits changes nothing; and a
    line with the phone [5215512345678] is found by a record with the phone
    [15512345678], under the key [5512345678]. *)
Theorem indice_de_registros (contenido : list Byte.byte) (primera : str)
    (datos : list str) (h p : nat) :
  split salto_linea (decode (sin_bom contenido)) = primera :: datos ->
  index (u "hostRegister") (leer_encabezado primera) = Some h ->
  index (u "phone") (leer_encabezado primera) = Some p ->
  let registros := (cargar_datos_csv (Some contenido)).2 in
  (forall k v : str,
     registros !! k = Some v
     <-> exists antes linea despues,
           datos = antes ++ linea :: despues
           /\ aporta h p linea k v
           /\ Forall (fun l' => forall v', ~ aporta h p l' k v') despues)
  /\ (forall (m : gmap str str) (linea numero_telefono : str),
        split coma (strip linea) !! p = Some numero_telefono ->
        (length (solo_digitos numero_telefono) < 10)%nat ->
        cargar_linea h p m linea = m)
  /\ (digitos_ascii E ->
      forall (m : gmap str str) (linea fecha : str),
        strip linea <> [] ->
        split coma (strip linea) !! h = Some fecha ->
        split coma (strip linea) !! p = Some (u "5215512345678") ->
        cargar_linea h p m linea !! u "5512345678" = Some fecha
        /\ exists r,
             procesar_usuario (VDict [(u "phone", VStr (u "15512345678"))])
                              (cargar_linea h p m linea) = ret (Some r)
             /\ Info.ultimos_10_digitos (Procesado.info r) = u "5512345678"
             /\ Info.fecha_registro (Procesado.info r) = VStr fecha).
Proof.
  intros Hlineas Hh Hp registros.
  assert (registros = foldl (cargar_linea h p) ∅ datos) as ->.
  { subst registros. unfold cargar_datos_csv. rewrite Hlineas.
    rewrite (index_en_lista _ _ _ Hh), (index_en_lista _ _ _ Hp), Hh, Hp. done. }
  split_and!.
  - intros k v. rewrite cargar_lineas_lookup. split; [|auto].
    intros [?|[Hvacio _]]; [done|]. by rewrite lookup_empty in Hvacio.
  - intros m linea tel Htel Hmenos.
    destruct (cargar_linea_casos h p m linea) as [(k & v & Hap & _)|[_ ->]]; [|done].
    destruct Hap as (_ & _ & tel' & Htel' & Hdiez & _).
    rewrite Htel in Htel'. injection Htel' as <-. lia.
  - intros Hascii m linea fecha Hno Hfecha Htel.
    assert (solo_digitos (u "5215512345678") = u "5215512345678") as Hcsv.
    { apply solo_digitos_ascii; [done|]. apply (bool_decide_unpack _). by vm_compute. }
    assert (solo_digitos (u "15512345678") = u "15512345678") as Hjson.
    { apply solo_digitos_ascii; [done|]. apply (bool_decide_unpack _). by vm_compute. }
    assert (cargar_linea h p m linea !! u "5512345678" = Some fecha) as Hclave.
    { destruct (cargar_linea_casos h p m linea) as [(k & v & Hap & ->)|[Hnada _]].
      - destruct Hap as (_ & Hv & tel' & Htel' & _ & ->).
        rewrite Htel in Htel'. injection Htel' as <-. rewrite Hfecha in Hv.
        injection Hv as <-. rewrite Hcsv. apply lookup_insert_eq.
      - destruct (Hnada (u "5512345678") fecha). split; [done|]. split; [done|].
        exists (u "5215512345678"). rewrite Hcsv. split; [done|].
        split; [vm_compute; lia|]. by vm_compute. }
    split; [done|]. rewrite procesar_usuario_objeto.
    change (buscar (u "phone") [(u "phone", VStr (u "15512345678"))])
      with (Some (VStr (u "15512345678"))).
    change (buscar (u "custom_attributes") [(u "phone", VStr (u "15512345678"))])
      with (@None valor).
    cbn [py_bool como_str bind ret]. rewrite Hjson.
    eexists. split; [reflexivity|].
    cbn [Procesado.info Info.ultimos_10_digitos Info.fecha_registro snd].
    change (if (10 <=? length (u "15512345678"))%nat
            then ultimos_10 (u "15512345678") else u "15512345678")
      with (u "5512345678").
    by rewrite Hclave.
Qed.

End Union.

(** ** Two runs over the same export *)

Section DosIndices.
Context {E : Entorno}.

(** Outside an object, lines 278-288 raise or copy nothing, whatever the
    date, unless the override is looked up. *)
Lemma copiar_atributos_dos_fechas (ca : valor) (f1 f2 : str) :
  (forall cad, ca <> VDict cad) ->
  py_in (u "fechaRegistro") ca <> ret true ->
  match copiar_atributos ca f1, copiar_atributos ca f2 with
  | inr x1, inr x2 => x1.1 = x2.1
  | inl e1, inl e2 => e1 = e2
  | _, _ => False
  end.
Proof.
  intros Hno Hfecha. unfold copiar_atributos.
  destruct (atributo ca (u "name")) as [?|n] eqn:Hn; [done|].
  destruct (atributo ca (u "paternal")) as [?|p] eqn:Hp; [done|].
  destruct (atributo ca (u "maternal")) as [?|m] eqn:Hm; [done|].
  destruct (atributo ca (u "entity")) as [?|e] eqn:He; [done|].
  cbn [bind].
  destruct (py_in (u "fechaRegistro") ca) as [?|[]]; cbn [bind andb]; done.
Qed.

Lemma procesar_usuario_dos_indices (usuario : valor) (f1 f2 : gmap str str) :
  atributos_regulares usuario ->
  match procesar_usuario usuario f1, procesar_usuario usuario f2 with
  | inr (Some r1), inr (Some r2) =>
      Procesado.sin_prefijo r1 = Procesado.sin_prefijo r2
      /\ igual_salvo_fechas (Procesado.info r1) (Procesado.info r2)
  | inr None, inr None => True
  | inl e1, inl e2 => e1 = e2
  | _, _ => False
  end.
Proof.
  intros Hca.
  destruct usuario as [| | | | s | l | d]; try done.
  - unfold procesar_usuario. simpl. by destruct (subcadena _ s).
  - unfold procesar_usuario. simpl. by destruct (existsb _ l).
  - rewrite !procesar_usuario_objeto.
    destruct (buscar (u "phone") d) as [telefono|]; [|done].
    destruct (py_bool telefono); [|done].
    destruct telefono as [| | | | phone | |]; try done.
    cbn [como_str bind ret]. unfold atributos_regulares in Hca.
    destruct (buscar (u "custom_attributes") d) as [ca|];
      [|cbn; unfold igual_salvo_fechas; cbn; done].
    set (fecha1 := default no_disponible _). set (fecha2 := default no_disponible _).
    assert (match copiar_atributos ca fecha1, copiar_atributos ca fecha2 with
            | inr x1, inr x2 => x1.1 = x2.1
            | inl e1, inl e2 => e1 = e2
            | _, _ => False
            end) as Hcopia.
    { destruct ca as [| | | | | |cad];
        try (by apply copiar_atributos_dos_fechas).
      by rewrite !copiar_atributos_VDict. }
    destruct (copiar_atributos ca fecha1) as [e1|[[[[n1 p1] m1] en1] fr1]],
             (copiar_atributos ca fecha2) as [e2|[[[[n2 p2] m2] en2] fr2]];
      try done.
    injection Hcopia as -> -> -> ->.
    cbn. unfold igual_salvo_fechas. cbn. done.
Qed.

Lemma procesar_objeto_dos_indices (texto : str) (f1 f2 : gmap str str) :
  texto_regular texto ->
  (procesar_objeto texto f1).1 = (procesar_objeto texto f2).1
  /\ match (procesar_objeto texto f1).2, (procesar_objeto texto f2).2 with
     | Some r1, Some r2 =>
         Procesado.sin_prefijo r1 = Procesado.sin_prefijo r2
         /\ igual_salvo_fechas (Procesado.info r1) (Procesado.info r2)
     | None, None => True
     | _, _ => False
     end.
Proof.
  intros Hreg. unfold procesar_objeto.
  destruct (json_loads texto) as [e|usuario] eqn:Hjson; cbn [bind].
  { by destruct e. }
  pose proof (procesar_usuario_dos_indices usuario f1 f2 (Hreg usuario Hjson)) as H.
  destruct (procesar_usuario usuario f1) as [e1|[r1|]],
           (procesar_usuario usuario f2) as [e2|[r2|]]; try done.
  subst e2. by destruct e1.
Qed.

Lemma registrar_dos_indices (texto : str) (f1 f2 : gmap str str) (st1 st2 : Estado.t) :
  texto_regular texto -> mismo_avance st1 st2 ->
  mismo_avance (registrar f1 texto st1) (registrar f2 texto st2).
Proof.
  intros Hreg (Hl & Htu & Htc & Hsin & Hcon).
  destruct (procesar_objeto_dos_indices texto f1 f2 Hreg) as [_ Hr].
  unfold registrar, mismo_avance.
  destruct (procesar_objeto texto f1) as [i1 [r1|]],
           (procesar_objeto texto f2) as [i2 [r2|]]; simpl in *; try done.
  - destruct Hr as [<- Hinfo]. rewrite Htu, Htc. split_and!; try done.
    + destruct (Procesado.sin_prefijo r1); [|done].
      apply Forall2_app; [done|]. by constructor.
    + destruct (Procesado.sin_prefijo r1); [done|].
      apply Forall2_app; [done|]. by constructor.
  - by rewrite Htu.
Qed.

Lemma bucle_dos_indices (f1 f2 : gmap str str) (lineas : list str) (st1 st2 : Estado.t) :
  Forall texto_regular (objetos_de (Estado.lector st1) lineas) ->
  mismo_avance st1 st2 ->
  mismo_avance (foldl (paso f1) st1 lineas) (foldl (paso f2) st2 lineas).
Proof.
  revert st1 st2. induction lineas as [|linea lineas IH]; intros st1 st2 Hreg Hav;
    [done|].
  simpl in *. pose proof Hav as (Hl & Htu & Htc & Hsin & Hcon).
  unfold paso at 2 4. rewrite <-Hl.
  destruct (leer_linea (Estado.lector st1) linea) as [r [texto|]].
  - apply Forall_cons in Hreg as [Htexto Hreg]. apply IH.
    + unfold registrar. by destruct (procesar_objeto texto f1) as [? [?|]].
    + by apply registrar_dos_indices.
  - by apply IH.
Qed.

(** C10 as amended: when no object of the export has for
    [custom_attributes] a string that contains [fechaRegistro] or an array
    that has it as an element, two runs with two registration files
    classify the same users into the same lists, equal in every field but
    [fecha_registro], [anio_registro], [mes_registro] and [periodo], and
    their summaries have the same [total_usuarios], [total_con_telefono],
    [total_sin_prefijo], [total_con_prefijo] and [porcentaje_sin_prefijo]. *)
Theorem clasificacion_independiente_del_indice
    (csv1 csv2 : option (list Byte.byte)) (lineas : list str) :
  Forall texto_regular (objetos_de lector_inicial (tail lineas)) ->
  let a1 := (analizar_archivo_json_streaming csv1 (Some lineas)).2 in
  let a2 := (analizar_archivo_json_streaming csv2 (Some lineas)).2 in
  Forall2 igual_salvo_fechas a1.1.1.1 a2.1.1.1
  /\ Forall2 igual_salvo_fechas a1.1.1.2 a2.1.1.2
  /\ a1.1.2 = a2.1.2
  /\ match a1.2, a2.2 with
     | Some r1, Some r2 =>
         Resumen.total_usuarios r1 = Resumen.total_usuarios r2
         /\ Resumen.total_con_telefono r1 = Resumen.total_con_telefono r2
         /\ Resumen.total_sin_prefijo r1 = Resumen.total_sin_prefijo r2
         /\ Resumen.total_con_prefijo r1 = Resumen.total_con_prefijo r2
         /\ Resumen.porcentaje_sin_prefijo r1 = Resumen.porcentaje_sin_prefijo r2
     | None, None => True
     | _, _ => False
     end.
Proof.
  intros Hreg. unfold analizar_archivo_json_streaming.
  destruct (cargar_datos_csv csv1) as [i1 f1], (cargar_datos_csv csv2) as [i2 f2].
  case_bool_decide; simpl; [done|].
  destruct (bucle_dos_indices f1 f2 (tail lineas)
              (estado_inicial (MsgAnalizando :: i1)) (estado_inicial (MsgAnalizando :: i2)))
    as (_ & Htu & Htc & Hsin & Hcon); [done|by repeat split|].
  pose proof (Forall2_length _ _ _ Hsin) as Hlsin.
  pose proof (Forall2_length _ _ _ Hcon) as Hlcon.
  split_and!; try done; congruence.
Qed.
End DosIndices.

(** C10 as stated fails: the last object of the worked export has the
    string [fechaRegistro] for [custom_attributes]; it is counted when the
    registration file has a row for its phone and dropped when it has none. *)
Lemma indice_cambia_los_totales :
  ~ (forall (E : Entorno) (csv1 csv2 : option (list Byte.byte))
            (archivo_json : option (list str)),
       (analizar_archivo_json_streaming csv1 archivo_json).2.1.2
       = (analizar_archivo_json_streaming csv2 archivo_json).2.1.2).
Proof.
  intros Hafirmacion.
  specialize (Hafirmacion entorno_ejemplo (Some csv_ejemplo) (Some csv_ampliado)
                (Some json_ejemplo)).
  vm_compute in Hafirmacion. discriminate.
Qed.

(** C8 as stated fails: the index has the date ['No disponible'] for the
    phone of the second object of the worked export, and [fecha_registro] is
    the [fechaRegistro] of its [custom_attributes]. *)
Lemma override_con_fecha_en_el_indice :
  ~ (forall (E : Entorno) (usuario : valor) (fechas : gmap str str)
            (r : Procesado.t) (f : str),
       procesar_usuario usuario fechas = ret (Some r) ->
       fechas !! Info.ultimos_10_digitos (Procesado.info r) = Some f ->
       Info.fecha_registro (Procesado.info r) = VStr f).
Proof.
  intros Hafirmacion.
  destruct (procesar_usuario (E := entorno_ejemplo) usuario_2
              {[ u "5598765432" := no_disponible ]}) as [e|[r|]] eqn:Hr;
    try (vm_compute in Hr; discriminate).
  specialize (Hafirmacion entorno_ejemplo usuario_2
                {[ u "5598765432" := no_disponible ]} r no_disponible Hr).
  vm_compute in Hr. injection Hr as <-.
  specialize (Hafirmacion eq_refl). vm_compute in Hafirmacion. discriminate.
Qed.


(** ** The worked input *)

Lemma digitos_ascii_ejemplo : digitos_ascii entorno_ejemplo.
Proof. intros c _. reflexivity. Qed.

(** The registration file of the worked input: the key [5512345678] holds
    the date of the row with the phone [5215512345678], the row with the
    phone [12345] adds no key, and the first object of the export, with the
    phone [15512345678], receives that date. *)
Lemma indice_de_registros_witness :
  (exists antes linea despues,
     [u "2021-03-04 05:06:07,5215512345678"; u "No disponible,+52 55 9876 5432";
      u "2019-07-08 09:10:11,12345"; []]
     = antes ++ linea :: despues
     /\ aporta (H := entorno_ejemplo) 0 1 linea
          (u "5512345678") (u "2021-03-04 05:06:07")
     /\ Forall (fun l' => forall v',
                          ~ aporta (H := entorno_ejemplo) 0 1 l' (u "5512345678") v')
               despues)
  /\ cargar_linea (E := entorno_ejemplo) 0 1 ∅ (u "2019-07-08 09:10:11,12345") = ∅
  /\ exists r,
       procesar_usuario (E := entorno_ejemplo) usuario_1
         (cargar_linea (E := entorno_ejemplo) 0 1 ∅
            (u "2021-03-04 05:06:07,5215512345678"))
       = ret (Some r)
       /\ Info.ultimos_10_digitos (Procesado.info r) = u "5512345678"
       /\ Info.fecha_registro (Procesado.info r) = VStr (u "2021-03-04 05:06:07").
Proof.
  destruct (indice_de_registros (E := entorno_ejemplo) csv_ejemplo
              (u "hostRegister,phone")
              [u "2021-03-04 05:06:07,5215512345678"; u "No disponible,+52 55 9876 5432";
               u "2019-07-08 09:10:11,12345"; []] 0 1)
    as (Hclave & Hcorta & Hunion); [vm_compute; reflexivity..|].
  split_and!.
  - apply Hclave. vm_compute. reflexivity.
  - apply (Hcorta ∅ (u "2019-07-08 09:10:11,12345") (u "12345")); vm_compute;
      [reflexivity|lia].
  - destruct (Hunion digitos_ascii_ejemplo ∅ (u "2021-03-04 05:06:07,5215512345678")
                (u "2021-03-04 05:06:07")) as [_ (r & Hr & Hsufijo & Hfecha)];
      [vm_compute; discriminate|vm_compute; reflexivity..|].
    vm_compute in Hr. injection Hr as <-.
    eexists. split; [vm_compute; reflexivity|]. split; [exact Hsufijo|exact Hfecha].
Defined.

(** The first object of the worked export is registered in March 2021; the
    second has a date in the index that [strptime] rejects, and takes the
    [fechaRegistro] of its [custom_attributes] without a period. *)
Lemma fechas_del_clasificado_witness :
  (exists r,
     procesar_usuario (E := entorno_ejemplo) usuario_1
       (cargar_datos_csv (E := entorno_ejemplo) (Some csv_ejemplo)).2 = ret (Some r)
     /\ Info.anio_registro (Procesado.info r) = Some 2021
     /\ Info.mes_registro (Procesado.info r) = Some 3
     /\ Info.periodo (Procesado.info r) = Some (u "2021-03")
     /\ Info.fecha_registro (Procesado.info r) = VStr (u "2021-03-04 05:06:07"))
  /\ (exists r,
        procesar_usuario (E := entorno_ejemplo) usuario_2
          (cargar_datos_csv (E := entorno_ejemplo) (Some csv_ejemplo)).2 = ret (Some r)
        /\ Info.periodo (Procesado.info r) = None
        /\ Info.fecha_registro (Procesado.info r) = VStr (u "2020-01-01 00:00:00")).
Proof.
  split.
  - destruct (procesar_usuario (E := entorno_ejemplo) usuario_1
                (cargar_datos_csv (E := entorno_ejemplo) (Some csv_ejemplo)).2)
      as [e|[r|]] eqn:Hr; try (vm_compute in Hr; discriminate).
    destruct (fechas_del_clasificado (E := entorno_ejemplo) usuario_1 _ r Hr)
      as (Hanalizada & _ & _ & Hcsv & _).
    assert (Hr' := Hr). vm_compute in Hr'. injection Hr' as <-.
    destruct (Hanalizada (u "2021-03-04 05:06:07") {| year := 2021; month := 3 |})
      as (Hanio & Hmes & Hperiodo & _); [vm_compute; reflexivity..|].
    eexists. split; [reflexivity|]. split; [exact Hanio|]. split; [exact Hmes|].
    split; [exact Hperiodo|].
    apply Hcsv; [vm_compute; reflexivity|vm_compute; discriminate].
  - destruct (procesar_usuario (E := entorno_ejemplo) usuario_2
                (cargar_datos_csv (E := entorno_ejemplo) (Some csv_ejemplo)).2)
      as [e|[r|]] eqn:Hr; try (vm_compute in Hr; discriminate).
    destruct (fechas_del_clasificado (E := entorno_ejemplo) usuario_2 _ r Hr)
      as (_ & Hrechazada & _ & _ & Hoverride).
    assert (Hr' := Hr). vm_compute in Hr'. injection Hr' as <-.
    eexists. split; [reflexivity|]. split.
    + apply (Hrechazada no_disponible); vm_compute; reflexivity.
    + etrans; [apply Hoverride; right; vm_compute; reflexivity|reflexivity].
Defined.

(** The first three objects of the worked export, with the two registration
    files. *)
Lemma clasificacion_independiente_del_indice_witness :
  Forall (texto_regular (H := entorno_ejemplo))
         (objetos_de lector_inicial (tail json_regular))
  /\ (analizar_archivo_json_streaming (E := entorno_ejemplo)
        (Some csv_ejemplo) (Some json_regular)).2.1.2
     = (analizar_archivo_json_streaming (E := entorno_ejemplo)
          (Some csv_ampliado) (Some json_regular)).2.1.2.
Proof.
  assert (Forall (texto_regular (H := entorno_ejemplo))
                 (objetos_de lector_inicial (tail json_regular))) as Hregular.
  { change (objetos_de lector_inicial (tail json_regular))
      with (map fst (take 3 tabla_ejemplo)).
    repeat constructor; intros usuario Hjson; vm_compute in Hjson;
      injection Hjson as <-; exact I. }
  split; [exact Hregular|].
  exact (proj1 (proj2 (proj2
    (clasificacion_independiente_del_indice (E := entorno_ejemplo)
       (Some csv_ejemplo) (Some csv_ampliado) json_regular Hregular)))).
Defined.

(** ** The keys of the registration index *)

Section Claves.
Context {E : Entorno}.

Lemma ultimos_10_largo (s : str) :
  (10 <= length s)%nat -> length (ultimos_10 s) = 10%nat.
Proof. intros Hs. unfold ultimos_10. rewrite length_drop. lia. Qed.

Lemma ultimos_10_corto (s : str) :
  (length s <= 10)%nat -> ultimos_10 s = s.
Proof.
  intros Hs. unfold ultimos_10.
  by replace (length s - 10)%nat with 0%nat by lia.
Qed.

Lemma solo_digitos_digitos (s : str) :
  Forall (fun c => es_digito c = true) (solo_digitos s).
Proof. apply Forall_forall. intros c Hc. by apply list_elem_of_filter in Hc as [? _]. Qed.

Lemma cargar_linea_claves (h p : nat) (m : gmap str str) (linea : str) :
  claves_de_diez m -> claves_de_diez (cargar_linea h p m linea).
Proof.
  intros Hm.
  destruct (cargar_linea_casos h p m linea) as [(k & v & Hap & ->)|[_ ->]]; [|done].
  destruct Hap as (_ & _ & tel & _ & Hdiez & ->).
  intros k' v'. destruct (decide (ultimos_10 (solo_digitos tel) = k')) as [<-|Hne].
  - intros _. split; [by apply ultimos_10_largo|].
    apply Forall_drop, solo_digitos_digitos.
  - rewrite lookup_insert_ne by done. apply Hm.
Qed.

Lemma cargar_lineas_claves (h p : nat) (datos : list str) (m : gmap str str) :
  claves_de_diez m -> claves_de_diez (foldl (cargar_linea h p) m datos).
Proof.
  revert m. induction datos as [|linea datos IH]; intros m Hm; simpl; [done|].
  by apply IH, cargar_linea_claves.
Qed.

Lemma cargar_datos_csv_claves (archivo : option (list Byte.byte)) :
  claves_de_diez (cargar_datos_csv archivo).2.
Proof.
  assert (claves_de_diez ∅) as Hvacio by (by intros ? ? ?%lookup_empty_Some).
  unfold cargar_datos_csv. destruct archivo as [contenido|]; [|done].
  destruct (split _ _) as [|primera datos]; [done|].
  destruct (_ && _); [|done].
  destruct (index _ _) as [h|]; [|done]. destruct (index _ _) as [p|]; [|done].
  by apply cargar_lineas_claves.
Qed.

(** X1: whatever the registration file holds, every key of the index the
    loader returns is made of exactly ten digits. *)
Theorem claves_del_indice (archivo : option (list Byte.byte)) (k v : str) :
  (cargar_datos_csv archivo).2 !! k = Some v ->
  length k = 10%nat /\ Forall (fun c => es_digito c = true) k.
Proof. apply cargar_datos_csv_claves. Qed.

End Claves.

(** The key of the worked registration file. *)
Lemma claves_del_indice_witness :
  (cargar_datos_csv (E := entorno_ejemplo) (Some csv_ejemplo)).2 !! u "5512345678"
  = Some (u "2021-03-04 05:06:07")
  /\ length (u "5512345678") = 10%nat
  /\ Forall (fun c => es_digito_ascii c = true) (u "5512345678").
Proof.
  assert ((cargar_datos_csv (E := entorno_ejemplo) (Some csv_ejemplo)).2 !! u "5512345678"
          = Some (u "2021-03-04 05:06:07")) as Hclave by (vm_compute; reflexivity).
  split; [exact Hclave|].
  exact (claves_del_indice (E := entorno_ejemplo) (Some csv_ejemplo) _ _ Hclave).
Defined.

(** ** The fields of a classified record *)

Section Campos.
Context {E : Entorno}.

(** Every field of a classified record, in terms of the object it comes
    from. *)
Lemma procesar_usuario_campos (usuario : valor) (fechas : gmap str str)
    (r : Procesado.t) :
  procesar_usuario usuario fechas = ret (Some r) ->
  exists (d : list (str * valor)) (phone : str),
    usuario = VDict d /\ buscar (u "phone") d = Some (VStr phone) /\ phone <> []
    /\ let numero_limpio := solo_digitos phone in
       let ultimos :=
         if (10 <=? length numero_limpio)%nat then ultimos_10 numero_limpio
         else numero_limpio in
       let fecha_csv := default no_disponible (fechas !! ultimos) in
       exists extras,
         match buscar (u "custom_attributes") d with
         | Some ca => copiar_atributos ca fecha_csv = ret extras
         | None => extras = (None, None, None, None, VStr fecha_csv)
         end
         /\ Procesado.sin_prefijo r = es_numero_mexicano_sin_prefijo phone
         /\ Info.phone (Procesado.info r) = phone
         /\ Info.phone_limpio (Procesado.info r) = numero_limpio
         /\ Info.ultimos_10_digitos (Procesado.info r) = ultimos
         /\ Info.phone_length (Procesado.info r) = Z.of_nat (length numero_limpio)
         /\ Info.email (Procesado.info r)
            = default (VStr no_disponible) (buscar (u "email") d)
         /\ Info.external_id (Procesado.info r)
            = default (VStr no_disponible) (buscar (u "external_id") d)
         /\ Info.country (Procesado.info r)
            = default (VStr no_disponible) (buscar (u "country") d)
         /\ Info.nombre (Procesado.info r) = extras.1.1.1.1
         /\ Info.apellido_paterno (Procesado.info r) = extras.1.1.1.2
         /\ Info.apellido_materno (Procesado.info r) = extras.1.1.2
         /\ Info.entidad (Procesado.info r) = extras.1.2.
Proof.
  intros Hr.
  destruct usuario as [| | | | s | l | d];
    try (by edestruct (procesar_usuario_no_objeto) as [H|H];
         [|rewrite H in Hr; discriminate|rewrite H in Hr; discriminate]).
  rewrite procesar_usuario_objeto in Hr.
  destruct (buscar (u "phone") d) as [telefono|] eqn:Htel; [|discriminate].
  destruct (py_bool telefono) eqn:Hbool; [|discriminate].
  destruct telefono as [| | | | phone | |]; try discriminate.
  cbn [como_str bind ret] in Hr.
  exists d, phone. split; [done|]. split; [done|]. split.
  { intros ->. discriminate. }
  cbn zeta.
  destruct (buscar (u "custom_attributes") d) as [ca|].
  - destruct (copiar_atributos ca _) as [e|x] eqn:Hca; [discriminate|].
    cbn [bind ret] in Hr. injection Hr as <-. by exists x.
  - cbn [bind ret] in Hr. injection Hr as <-. by eexists.
Qed.

(** X2: a record whose phone has fewer than ten digits finds no date in an
    index built by the loader: no key of that index is its digit string, so
    the record has no year, month or period, and its [fecha_registro] is the
    [fechaRegistro] of its [custom_attributes] when there is one and
    ['No disponible'] otherwise. *)
Theorem telefono_corto_sin_fecha (archivo : option (list Byte.byte))
    (usuario : valor) (r : Procesado.t) :
  procesar_usuario usuario (cargar_datos_csv archivo).2 = ret (Some r) ->
  Info.phone_length (Procesado.info r) < 10 ->
  let i := Procesado.info r in
  (cargar_datos_csv archivo).2 !! Info.ultimos_10_digitos i = None
  /\ Info.anio_registro i = None /\ Info.mes_registro i = None
  /\ Info.periodo i = None
  /\ Info.fecha_registro i = default (VStr no_disponible) (fecha_override usuario).
Proof.
  intros Hr Hcorto i.
  destruct (procesar_usuario_campos _ _ r Hr)
    as (d & phone & _ & _ & _ & extras & _ & _ & _ & _ & Hult & Hlen & _).
  assert ((cargar_datos_csv archivo).2 !! Info.ultimos_10_digitos i = None) as Hnada.
  { destruct (_ !! Info.ultimos_10_digitos i) as [v|] eqn:Hv; [|done].
    apply cargar_datos_csv_claves in Hv as [Hdiez _]. subst i. rewrite Hult in Hdiez.
    rewrite Hlen in Hcorto.
    destruct (Nat.leb_spec 10 (length (solo_digitos phone))); lia. }
  split; [done|].
  destruct (procesar_usuario_clasifica _ _ r Hr)
    as (_ & _ & _ & _ & _ & _ & Hanio & Hmes & Hperiodo & Hfecha).
  fold i in Hanio, Hmes, Hperiodo, Hfecha.
  rewrite Hnada in Hanio, Hmes, Hperiodo, Hfecha. split_and!; try done.
Qed.

(** X3: in a classified record the phone is a non-empty string,
    [phone_limpio] is its digits and [phone_length] their number;
    [ultimos_10_digitos] is the end of [phone_limpio], of length ten or of
    the length of [phone_limpio] when that is less; [sin_prefijo] holds
    exactly when [phone_length] is ten, and then [ultimos_10_digitos] is all
    of [phone_limpio]. *)
Theorem campos_del_telefono (usuario : valor) (fechas : gmap str str)
    (r : Procesado.t) :
  procesar_usuario usuario fechas = ret (Some r) ->
  let i := Procesado.info r in
  Info.phone i <> []
  /\ Info.phone_limpio i = solo_digitos (Info.phone i)
  /\ Info.phone_length i = Z.of_nat (length (Info.phone_limpio i))
  /\ Info.ultimos_10_digitos i `suffix_of` Info.phone_limpio i
  /\ length (Info.ultimos_10_digitos i) = Nat.min 10 (length (Info.phone_limpio i))
  /\ (Procesado.sin_prefijo r = true <-> Info.phone_length i = 10)
  /\ (Procesado.sin_prefijo r = true -> Info.ultimos_10_digitos i = Info.phone_limpio i).
Proof.
  intros Hr i.
  destruct (procesar_usuario_campos usuario fechas r Hr)
    as (d & phone & _ & _ & Hno & extras & _ & Hsin & Hphone & Hlimpio & Hult & Hlen & _).
  subst i. rewrite Hsin, Hphone, Hlimpio, Hult, Hlen.
  rewrite es_numero_mexicano_sin_prefijo_eq, bool_decide_eq_true.
  split_and!; try done.
  - case_match; [apply suffix_drop|done].
  - destruct (Nat.leb_spec 10 (length (solo_digitos phone))).
    + rewrite ultimos_10_largo by done. lia.
    + lia.
  - lia.
  - intros Hdiez. rewrite Hdiez. simpl. apply ultimos_10_corto. lia.
Qed.

(** X4: in a classified record, [email], [external_id] and [country] are
    those of the object, or ['No disponible'] for a key the object lacks;
    [nombre], [apellido_paterno], [apellido_materno] and [entidad] are the
    [name], [paternal], [maternal] and [entity] of [custom_attributes] when
    that is an object which has them, and are absent otherwise. *)
Theorem perfil_del_clasificado (d : list (str * valor)) (fechas : gmap str str)
    (r : Procesado.t) :
  procesar_usuario (VDict d) fechas = ret (Some r) ->
  let i := Procesado.info r in
  let cad := match buscar (u "custom_attributes") d with
             | Some (VDict cad) => cad
             | _ => []
             end in
  Info.email i = default (VStr no_disponible) (buscar (u "email") d)
  /\ Info.external_id i = default (VStr no_disponible) (buscar (u "external_id") d)
  /\ Info.country i = default (VStr no_disponible) (buscar (u "country") d)
  /\ Info.nombre i = buscar (u "name") cad
  /\ Info.apellido_paterno i = buscar (u "paternal") cad
  /\ Info.apellido_materno i = buscar (u "maternal") cad
  /\ Info.entidad i = buscar (u "entity") cad.
Proof.
  intros Hr i cad.
  destruct (procesar_usuario_campos _ fechas r Hr)
    as (d' & phone & [= <-] & _ & _ & extras & Hextras & _ & _ & _ & _ & _
        & Hemail & Hext & Hcountry & Hn & Hp & Hm & He).
  subst i. rewrite Hemail, Hext, Hcountry, Hn, Hp, Hm, He. split_and!; try done.
  all: subst cad; destruct (buscar (u "custom_attributes") d) as [ca|]; [|by subst extras].
  all: destruct ca as [| | | | | |cad];
         try (by apply copiar_atributos_no_objeto in Hextras as ->).
  all: rewrite copiar_atributos_VDict in Hextras; by injection Hextras as <-.
Qed.

(** X5: an object without [phone], or whose [phone] is null, false, zero or
    empty, is skipped in silence, and no other object is: the classifier
    prints nothing and returns nothing exactly in that case. The loop then
    counts the object in [total_usuarios] and changes no other counter, no
    list and no output. *)
Theorem registro_sin_telefono (texto : str) (d : list (str * valor))
    (fechas : gmap str str) (st : Estado.t) :
  json_loads texto = ret (VDict d) ->
  (procesar_objeto texto fechas = ([], None)
   <-> py_bool (default VNone (buscar (u "phone") d)) = false)
  /\ (py_bool (default VNone (buscar (u "phone") d)) = false ->
      let st' := registrar fechas texto st in
      Estado.total_usuarios st' = Estado.total_usuarios st + 1
      /\ Estado.total_usuarios_con_telefono st' = Estado.total_usuarios_con_telefono st
      /\ Estado.usuarios_sin_prefijo st' = Estado.usuarios_sin_prefijo st
      /\ Estado.usuarios_con_prefijo st' = Estado.usuarios_con_prefijo st
      /\ Estado.salida st' = Estado.salida st).
Proof.
  intros Hjson.
  assert (procesar_objeto texto fechas = ([], None)
          <-> py_bool (default VNone (buscar (u "phone") d)) = false) as Hssi.
  { unfold procesar_objeto. rewrite Hjson. cbn [bind ret]. rewrite procesar_usuario_objeto.
    destruct (buscar (u "phone") d) as [telefono|]; [|done]. cbn [default from_option id].
    destruct (py_bool telefono); [|done].
    split; [|done].
    destruct (como_str telefono) as [e|phone]; cbn [bind]; [by destruct e|].
    destruct (buscar (u "custom_attributes") d) as [ca|]; [|done].
    destruct (copiar_atributos ca _) as [e|x]; cbn [bind]; [by destruct e|done]. }
  split; [done|]. intros Hfalso. apply Hssi in Hfalso.
  unfold registrar. rewrite Hfalso. simpl. by rewrite app_nil_r.
Qed.

(** X6: an object whose [phone] is truthy and not a string (a nonzero
    number, [true], a non-empty array or object) makes [re.sub] raise
    [TypeError]; the classifier prints the exception and returns nothing. *)
Theorem telefono_no_cadena (texto : str) (d : list (str * valor))
    (telefono : valor) (fechas : gmap str str) :
  json_loads texto = ret (VDict d) ->
  buscar (u "phone") d = Some telefono ->
  py_bool telefono = true ->
  (forall s : str, telefono <> VStr s) ->
  procesar_usuario (VDict d) fechas = raise TypeError
  /\ procesar_objeto texto fechas = ([MsgErrorProcesarObjeto TypeError], None).
Proof.
  intros Hjson Htel Hbool Hno.
  assert (procesar_usuario (VDict d) fechas = raise TypeError) as Hraise.
  { rewrite procesar_usuario_objeto, Htel, Hbool.
    destruct telefono; try done. by destruct (Hno s). }
  split; [done|]. unfold procesar_objeto. rewrite Hjson. cbn [bind ret]. by rewrite Hraise.
Qed.

(** X7: an object whose [phone] is a non-empty string, and whose
    [custom_attributes] is absent or an object, is always classified,
    whatever the index holds: the record carries the phone as given, and
    [sin_prefijo] tells whether the phone has exactly ten digits. *)
Theorem registro_bien_formado (d : list (str * valor)) (phone : str)
    (fechas : gmap str str) :
  buscar (u "phone") d = Some (VStr phone) ->
  phone <> [] ->
  (buscar (u "custom_attributes") d = None
   \/ exists cad, buscar (u "custom_attributes") d = Some (VDict cad)) ->
  exists r : Procesado.t,
    procesar_usuario (VDict d) fechas = ret (Some r)
    /\ Info.phone (Procesado.info r) = phone
    /\ Procesado.sin_prefijo r = bool_decide (length (solo_digitos phone) = 10%nat).
Proof.
  intros Htel Hno Hca. rewrite procesar_usuario_objeto, Htel.
  cbn [py_bool como_str bind ret]. rewrite bool_decide_eq_false_2 by done.
  cbn [negb]. rewrite <-es_numero_mexicano_sin_prefijo_eq.
  destruct Hca as [->|[cad ->]].
  - cbn [bind ret]. by eexists.
  - rewrite copiar_atributos_VDict. cbn [bind ret]. by eexists.
Qed.

End Campos.

(** A phone of five digits, against the worked registration file, which has
    a row for the phone [12345]. *)
Lemma telefono_corto_sin_fecha_witness :
  exists r,
    procesar_usuario (E := entorno_ejemplo) usuario_corto
      (cargar_datos_csv (E := entorno_ejemplo) (Some csv_ejemplo)).2 = ret (Some r)
    /\ Info.phone_length (Procesado.info r) < 10
    /\ Info.periodo (Procesado.info r) = None
    /\ Info.fecha_registro (Procesado.info r) = VStr no_disponible.
Proof.
  destruct (procesar_usuario (E := entorno_ejemplo) usuario_corto
              (cargar_datos_csv (E := entorno_ejemplo) (Some csv_ejemplo)).2)
    as [e|[r|]] eqn:Hr; try (vm_compute in Hr; discriminate).
  assert (Info.phone_length (Procesado.info r) < 10) as Hcorto.
  { assert (Hr' := Hr). vm_compute in Hr'. injection Hr' as <-. reflexivity. }
  destruct (telefono_corto_sin_fecha (E := entorno_ejemplo) (Some csv_ejemplo)
              usuario_corto r Hr Hcorto) as (_ & _ & _ & Hperiodo & Hfecha).
  exists r. split; [reflexivity|]. split; [exact Hcorto|]. split; [exact Hperiodo|].
  exact Hfecha.
Defined.

(** The second object of the worked export: ten digits among hyphens. *)
Lemma campos_del_telefono_witness :
  exists r,
    procesar_usuario (E := entorno_ejemplo) usuario_2
      (cargar_datos_csv (E := entorno_ejemplo) (Some csv_ejemplo)).2 = ret (Some r)
    /\ Info.phone_limpio (Procesado.info r) = u "5598765432"
    /\ Info.phone_length (Procesado.info r) = 10
    /\ Procesado.sin_prefijo r = true
    /\ Info.ultimos_10_digitos (Procesado.info r) = u "5598765432".
Proof.
  destruct (procesar_usuario (E := entorno_ejemplo) usuario_2
              (cargar_datos_csv (E := entorno_ejemplo) (Some csv_ejemplo)).2)
    as [e|[r|]] eqn:Hr; try (vm_compute in Hr; discriminate).
  destruct (campos_del_telefono (E := entorno_ejemplo) usuario_2 _ r Hr)
    as (_ & Hlimpio & Hlen & _ & _ & Hsin & Hult).
  assert (Info.phone (Procesado.info r) = u "55-9876-5432") as Hphone.
  { assert (Hr' := Hr). vm_compute in Hr'. injection Hr' as <-. reflexivity. }
  assert (Info.phone_limpio (Procesado.info r) = u "5598765432") as Hdigitos.
  { rewrite Hlimpio, Hphone. vm_compute. reflexivity. }
  assert (Info.phone_length (Procesado.info r) = 10) as Hdiez.
  { rewrite Hlen, Hdigitos. reflexivity. }
  exists r. split; [reflexivity|]. split; [exact Hdigitos|]. split; [exact Hdiez|].
  split; [apply Hsin, Hdiez|].
  etrans; [apply Hult, Hsin, Hdiez|exact Hdigitos].
Defined.

(** The second object of the worked export: a name and no e-mail. *)
Lemma perfil_del_clasificado_witness :
  exists r,
    procesar_usuario (E := entorno_ejemplo) usuario_2 ∅ = ret (Some r)
    /\ Info.email (Procesado.info r) = VStr no_disponible
    /\ Info.nombre (Procesado.info r) = Some (VStr (u "Ana"))
    /\ Info.entidad (Procesado.info r) = None.
Proof.
  destruct (procesar_usuario (E := entorno_ejemplo) usuario_2 ∅)
    as [e|[r|]] eqn:Hr; try (vm_compute in Hr; discriminate).
  destruct (perfil_del_clasificado (E := entorno_ejemplo) _ ∅ r Hr)
    as (Hemail & _ & _ & Hnombre & _ & _ & Hentidad).
  exists r. split; [reflexivity|]. split; [exact Hemail|]. split; [exact Hnombre|].
  exact Hentidad.
Defined.

(** The third object of the worked export has no phone. *)
Lemma registro_sin_telefono_witness :
  procesar_objeto (E := entorno_ejemplo) (j "{'email': 'sin@telefono.mx'}") ∅ = ([], None)
  /\ Estado.total_usuarios
       (registrar (E := entorno_ejemplo) ∅ (j "{'email': 'sin@telefono.mx'}")
          (estado_inicial []))
     = 1
  /\ Estado.total_usuarios_con_telefono
       (registrar (E := entorno_ejemplo) ∅ (j "{'email': 'sin@telefono.mx'}")
          (estado_inicial []))
     = 0.
Proof.
  destruct (registro_sin_telefono (E := entorno_ejemplo) (j "{'email': 'sin@telefono.mx'}")
              [(u "email", VStr (u "sin@telefono.mx"))] ∅ (estado_inicial []))
    as [Hssi Hcuenta]; [vm_compute; reflexivity|].
  split; [apply Hssi; reflexivity|].
  destruct (Hcuenta eq_refl) as (Htotal & Hcon & _).
  split; [exact Htotal|exact Hcon].
Defined.

(** A phone written as a JSON number. *)
Lemma telefono_no_cadena_witness :
  procesar_objeto (E := entorno_numerico) (j "{'phone': 5512345678}") ∅
  = ([MsgErrorProcesarObjeto TypeError], None).
Proof.
  destruct (telefono_no_cadena (E := entorno_numerico) (j "{'phone': 5512345678}")
              [(u "phone", VInt 5512345678)] (VInt 5512345678) ∅) as [_ Hobjeto];
    [vm_compute; reflexivity|vm_compute; reflexivity|reflexivity|
     intros s; discriminate|].
  exact Hobjeto.
Defined.

(** The first object of the worked export: eleven digits. *)
Lemma registro_bien_formado_witness :
  exists r,
    procesar_usuario (E := entorno_ejemplo) usuario_1 ∅ = ret (Some r)
    /\ Info.phone (Procesado.info r) = u "15512345678"
    /\ Procesado.sin_prefijo r = false.
Proof.
  destruct (registro_bien_formado (E := entorno_ejemplo)
              [(u "phone", VStr (u "15512345678")); (u "email", VStr (u "a@x.mx"))]
              (u "15512345678") ∅) as (r & Hr & Hphone & Hsin);
    [vm_compute; reflexivity|vm_compute; discriminate|left; vm_compute; reflexivity|].
  exists r. split; [exact Hr|]. split; [exact Hphone|].
  etrans; [exact Hsin|vm_compute; reflexivity].
Defined.

(** ** The analysis loop, object by object *)

Section Bucle.
Context {E : Entorno}.

(** The loop, read as the classifier mapped over the texts the
    reconstructor hands over. *)
Lemma bucle_por_objetos (fechas : gmap str str) (lineas : list str) (st : Estado.t) :
  let textos := objetos_de (Estado.lector st) lineas in
  let resultados := map (fun t => procesar_objeto t fechas) textos in
  let clasificados := omap snd resultados in
  let st' := foldl (paso fechas) st lineas in
  Estado.total_usuarios st' = Estado.total_usuarios st + Z.of_nat (length textos)
  /\ Estado.total_usuarios_con_telefono st'
     = Estado.total_usuarios_con_telefono st + Z.of_nat (length clasificados)
  /\ Estado.usuarios_sin_prefijo st'
     = Estado.usuarios_sin_prefijo st
       ++ map Procesado.info (filter (fun r => Procesado.sin_prefijo r = true) clasificados)
  /\ Estado.usuarios_con_prefijo st'
     = Estado.usuarios_con_prefijo st
       ++ map Procesado.info (filter (fun r => Procesado.sin_prefijo r = false) clasificados)
  /\ Estado.salida st' = Estado.salida st ++ concat (map fst resultados).
Proof.
  revert st. induction lineas as [|linea lineas IH]; intros st; cbn zeta.
  { simpl. rewrite !app_nil_r. split_and!; try done; lia. }
  cbn [foldl objetos_de]. unfold paso at 2 4 6 8 10.
  destruct (leer_linea (Estado.lector st) linea) as [r [texto|]].
  - specialize (IH (registrar fechas texto (con_lector r st))).
    assert (Estado.lector (registrar fechas texto (con_lector r st)) = r) as Hl.
    { unfold registrar. by destruct (procesar_objeto texto fechas) as [? [?|]]. }
    rewrite Hl in IH. cbn zeta in IH.
    destruct IH as (-> & -> & -> & -> & ->). clear Hl.
    unfold registrar. cbn [map omap concat].
    destruct (procesar_objeto texto fechas) as [impreso [res|]]; cbn.
    + destruct (Procesado.sin_prefijo res); cbn; rewrite <-?app_assoc;
        split_and!; try done; unfold omap; lia.
    + rewrite <-!app_assoc. split_and!; try done; lia.
  - specialize (IH (con_lector r st)). cbn zeta in IH.
    by destruct IH as (-> & -> & -> & -> & ->).
Qed.


Lemma clasificado_por_longitud (usuario : valor) (fechas : gmap str str)
    (r : Procesado.t) :
  procesar_usuario usuario fechas = ret (Some r) ->
  (Procesado.sin_prefijo r = true ->
   Info.phone_length (Procesado.info r) = 10
   /\ Info.ultimos_10_digitos (Procesado.info r) = Info.phone_limpio (Procesado.info r))
  /\ (Procesado.sin_prefijo r = false -> Info.phone_length (Procesado.info r) <> 10).
Proof.
  intros Hr.
  destruct (procesar_usuario_campos usuario fechas r Hr)
    as (d & phone & _ & _ & Hno & extras & _ & Hsin & Hphone & Hlimpio & Hult & Hlen & _).
  rewrite Hsin, Hlimpio, Hult, Hlen, es_numero_mexicano_sin_prefijo_eq.
  split.
  - intros Hdiez%bool_decide_eq_true. rewrite Hdiez. split; [done|].
    simpl. apply ultimos_10_corto. lia.
  - intros Hotro%bool_decide_eq_false. lia.
Qed.

Lemma clasificados_de_textos (fechas : gmap str str) (textos : list str)
    (r : Procesado.t) :
  r ∈ omap snd (map (fun t => procesar_objeto t fechas) textos) ->
  exists usuario : valor, procesar_usuario usuario fechas = ret (Some r).
Proof.
  intros (res & Hres & Hr)%list_elem_of_omap.
  apply list_elem_of_In, in_map_iff in Hres as (t & <- & _).
  apply procesar_objeto_clasifica in Hr as (usuario & _ & Hr). eauto.
Qed.

(** X9: in what any run returns, every user of the list without prefix has
    a [phone_length] of ten and its whole digit string as
    [ultimos_10_digitos], and no user of the list with prefix has a
    [phone_length] of ten. *)
Theorem listas_por_longitud (archivo_csv : option (list Byte.byte))
    (archivo_json : option (list str)) :
  let a := (analizar_archivo_json_streaming archivo_csv archivo_json).2 in
  Forall (fun i => Info.phone_length i = 10
                   /\ Info.ultimos_10_digitos i = Info.phone_limpio i) a.1.1.1
  /\ Forall (fun i => Info.phone_length i <> 10) a.1.1.2.
Proof.
  unfold analizar_archivo_json_streaming.
  destruct (cargar_datos_csv archivo_csv) as [impreso fechas].
  destruct archivo_json as [lineas|]; [|by split; constructor].
  case_bool_decide; [by split; constructor|]. cbn [fst snd].
  destruct (bucle_por_objetos fechas (tail lineas) (estado_inicial (MsgAnalizando :: impreso)))
    as (_ & _ & -> & -> & _).
  cbn [estado_inicial Estado.usuarios_sin_prefijo Estado.usuarios_con_prefijo app].
  split; apply Forall_fmap, Forall_forall; intros r [Hsin Hr]%list_elem_of_filter;
    apply clasificados_de_textos in Hr as [usuario Hr];
    apply clasificado_por_longitud in Hr as [Hdiez Hotro]; cbn; auto.
Qed.

(** A line that is blank once trimmed changes nothing, inside an object or
    outside. *)
Lemma paso_linea_omitida (fechas : gmap str str) (st : Estado.t) (linea : str) :
  strip linea = [] -> paso fechas st linea = st.
Proof.
  intros Hblanca. unfold paso, leer_linea. rewrite Hblanca.
  rewrite bool_decide_eq_true_2 by done. by destruct st.
Qed.

(** X10: lines that are empty or made of white space, anywhere after the
    first line, also in the middle of an object, do not change what a run
    prints or returns. *)
Theorem lineas_en_blanco (archivo_csv : option (list Byte.byte))
    (primera : str) (resto : list str) :
  analizar_archivo_json_streaming archivo_csv (Some (primera :: resto))
  = analizar_archivo_json_streaming archivo_csv
      (Some (primera :: filter (fun linea => strip linea <> []) resto)).
Proof.
  unfold analizar_archivo_json_streaming.
  destruct (cargar_datos_csv archivo_csv) as [impreso fechas]. cbn [head tail default].
  cbn [from_option id]. case_bool_decide; [done|].
  assert (forall st, foldl (paso fechas) st (filter (fun linea => strip linea <> []) resto)
                     = foldl (paso fechas) st resto) as ->; [|done].
  induction resto as [|linea resto IH]; intros st; [done|].
  rewrite filter_cons. case_decide as Hblanca; cbn [foldl]; [apply IH|].
  rewrite (paso_linea_omitida fechas st linea); [apply IH|].
  by destruct (decide (strip linea = [])).
Qed.

End Bucle.


(** ** White space around the lines *)

Section Espacios.

Lemma lstrip_con_prefijo (P : N -> bool) (a s : str) :
  Forall (fun c => P c = true) a -> lstrip_con P (a ++ s) = lstrip_con P s.
Proof. induction 1 as [|c a Hc _ IH]; [done|]. simpl. by rewrite Hc. Qed.

Lemma lstrip_con_app (P : N -> bool) (s b : str) :
  lstrip_con P (s ++ b)
  = match lstrip_con P s with
    | [] => lstrip_con P b
    | t => t ++ b
    end.
Proof.
  induction s as [|c s IH]; [done|]. simpl.
  by destruct (P c).
Qed.

Lemma lstrip_con_todo (P : N -> bool) (b : str) :
  Forall (fun c => P c = true) b -> lstrip_con P b = [].
Proof. induction 1 as [|c b Hc _ IH]; [done|]. simpl. by rewrite Hc. Qed.

Lemma rstrip_con_sufijo (P : N -> bool) (s b : str) :
  Forall (fun c => P c = true) b -> rstrip_con P (s ++ b) = rstrip_con P s.
Proof.
  intros Hb. unfold rstrip_con. rewrite rev_app_distr, lstrip_con_prefijo; [done|].
  apply Forall_forall. intros c Hc%list_elem_of_In%in_rev%list_elem_of_In.
  by eapply Forall_forall in Hb.
Qed.

Lemma strip_con_espacios (linea linea' : str) :
  con_espacios linea linea' -> strip linea' = strip linea.
Proof.
  intros (a & b & Ha & Hb & ->). unfold strip.
  rewrite lstrip_con_prefijo by done. rewrite lstrip_con_app.
  destruct (lstrip_con es_espacio linea) as [|c t] eqn:Hl.
  - by rewrite lstrip_con_todo.
  - by rewrite rstrip_con_sufijo.
Qed.

Context {E : Entorno}.

Lemma paso_con_espacios (fechas : gmap str str) (st : Estado.t) (linea linea' : str) :
  con_espacios linea linea' -> paso fechas st linea' = paso fechas st linea.
Proof.
  intros Hl%strip_con_espacios. unfold paso, leer_linea. by rewrite Hl.
Qed.

(** X11: white space added at the start and at the end of the lines of the
    export (indentation, a carriage return before the line feed, a missing
    final line feed) does not change what a run prints or returns. *)
Theorem espacios_alrededor (archivo_csv : option (list Byte.byte))
    (lineas lineas' : list str) :
  Forall2 con_espacios lineas lineas' ->
  analizar_archivo_json_streaming archivo_csv (Some lineas')
  = analizar_archivo_json_streaming archivo_csv (Some lineas).
Proof.
  intros Hl. unfold analizar_archivo_json_streaming.
  destruct (cargar_datos_csv archivo_csv) as [impreso fechas].
  assert (strip (default [] (head lineas')) = strip (default [] (head lineas))) as ->.
  { destruct Hl as [|l l' ? ? Hll _]; [done|]. by apply strip_con_espacios. }
  case_bool_decide; [done|].
  assert (forall st, foldl (paso fechas) st (tail lineas')
                     = foldl (paso fechas) st (tail lineas)) as ->; [|done].
  assert (Forall2 con_espacios (tail lineas) (tail lineas')) as Ht
    by (destruct Hl; [constructor|done]).
  clear Hl. induction Ht as [|l l' ls ls' Hll _ IH]; intros st; [done|].
  cbn [foldl]. by rewrite (paso_con_espacios _ _ l l'), IH.
Qed.

End Espacios.

(** The worked export, indented and with carriage returns. *)
Lemma espacios_alrededor_witness :
  Forall2 con_espacios json_ejemplo json_crlf
  /\ analizar_archivo_json_streaming (E := entorno_ejemplo)
       (Some csv_ejemplo) (Some json_crlf)
     = analizar_archivo_json_streaming (E := entorno_ejemplo)
         (Some csv_ejemplo) (Some json_ejemplo).
Proof.
  assert (Forall2 con_espacios json_ejemplo json_crlf) as Hespacios.
  { apply Forall2_fmap_r, Forall_Forall2_diag, Forall_forall. intros linea _.
    exists [32; 32]%N, [13; 10]%N. split; [by repeat constructor|].
    split; [by repeat constructor|reflexivity]. }
  split; [exact Hespacios|].
  exact (espacios_alrededor (E := entorno_ejemplo) (Some csv_ejemplo) _ _ Hespacios).
Defined.

(** ** The texts the reconstructor hands over *)

Section Formas.

Lemma startswith_spec (s p : str) :
  startswith s p = true <-> exists t, s = p ++ t.
Proof.
  revert s. induction p as [|a p IH]; intros [|b s]; simpl.
  - split; [intros _; by exists []|done].
  - split; [intros _; by exists (b :: s)|done].
  - split; [done|by intros [? ?]].
  - rewrite andb_true_iff, N.eqb_eq, IH. split.
    + intros [-> [t ->]]. eauto.
    + intros [t [= -> ->]]. eauto.
Qed.

Lemma endswith_spec (s p : str) :
  endswith s p = true <-> exists t, s = t ++ p.
Proof.
  unfold endswith. rewrite startswith_spec. split.
  - intros [t Ht]. exists (rev t). apply (f_equal (@rev N)) in Ht.
    by rewrite rev_involutive, rev_app_distr, rev_involutive in Ht.
  - intros [t ->]. exists (rev t). by rewrite rev_app_distr.
Qed.

Lemma count_app (c : N) (s t : str) : count c (s ++ t) = count c s + count c t.
Proof. unfold count. rewrite filter_app, length_app. lia. Qed.

Lemma removelast_coma (s : str) : removelast (s ++ u "},") = s ++ u "}".
Proof.
  change (u "},") with ([llave_cierra] ++ [coma]). change (u "}") with [llave_cierra].
  by rewrite app_assoc, removelast_last.
Qed.

(** What a line does to the reconstructor. *)
Lemma leer_linea_formas (r r' : Lector.t) (linea : str) (o : option str) :
  lector_ok r -> leer_linea r linea = (r', o) ->
  lector_ok r'
  /\ forall t, o = Some t ->
       startswith t (u "{") = true /\ endswith t (u "}") = true
       /\ (count llave_abre t = count llave_cierra t \/ t = strip linea).
Proof.
  intros Hr. unfold leer_linea. set (l := strip linea).
  case_bool_decide as Hvacia; [by intros [= <- <-]|].
  destruct (Lector.en_objeto r) eqn:Hen; cbn [negb].
  - destruct (Hr Hen) as [Hini Hllaves]. clear Hr.
    apply startswith_spec in Hini as [b Hb].
    destruct (_ && _) eqn:Hcond.
    + intros [= <- <-]. split; [done|]. intros t [= <-].
      apply andb_true_iff in Hcond as [Hcero%Z.eqb_eq Hfin].
      rewrite Hllaves in Hcero.
      unfold sin_coma_final. destruct (endswith l (u "},")) eqn:Hcoma.
      * apply endswith_spec in Hcoma as [l0 Hl0]. rewrite Hl0 in *.
        rewrite app_assoc, removelast_coma. split_and!.
        -- apply startswith_spec. rewrite Hb, <-!app_assoc. eauto.
        -- apply endswith_spec. eauto.
        -- left. rewrite !count_app in *.
           change (count llave_abre (u "},")) with 0 in Hcero.
           change (count llave_cierra (u "},")) with 1 in Hcero.
           change (count llave_abre (u "}")) with 0.
           change (count llave_cierra (u "}")) with 1. lia.
      * cbn [orb] in Hfin. apply endswith_spec in Hfin as [l0 Hl0]. split_and!.
        -- apply startswith_spec. rewrite Hb, <-app_assoc. eauto.
        -- apply endswith_spec. rewrite Hl0, app_assoc. eauto.
        -- left. rewrite !count_app. lia.
    + intros [= <- <-]. split; [|done]. intros _. cbn. split.
      * apply startswith_spec. rewrite Hb, <-app_assoc. eauto.
      * rewrite Hllaves, !count_app. lia.
  - destruct (startswith l (u "{")) eqn:Hini; [|by intros [= <- <-]].
    destruct (_ || _) eqn:Hcond.
    + intros [= <- <-]. split; [done|]. intros t [= <-].
      unfold sin_coma_final. destruct (endswith l (u "},")) eqn:Hcoma.
      * pose proof Hcoma as [l0 Hl0]%endswith_spec.
        assert (endswith l (u "}") = false) as Hno.
        { apply not_true_is_false. intros [l1 Hl1]%endswith_spec.
          rewrite Hl1 in Hl0. change (u "},") with ([llave_cierra] ++ [coma]) in Hl0.
          change (u "}") with [llave_cierra] in Hl0. rewrite app_assoc in Hl0.
          by apply app_inj_tail in Hl0 as [_ [=]]. }
        rewrite Hno, orb_false_r, andb_true_r in Hcond. apply Z.eqb_eq in Hcond.
        rewrite Hl0 in *. rewrite removelast_coma.
        apply startswith_spec in Hini as [b Hb]. split_and!.
        -- apply startswith_spec. change (u "{") with [llave_abre] in *.
           change (u "},") with [llave_cierra; coma] in Hb.
           destruct l0 as [|c l0]; [discriminate|].
           injection Hb as -> _. by exists (l0 ++ u "}").
        -- apply endswith_spec. eauto.
        -- left. rewrite !count_app in *.
           change (count llave_abre (u "},")) with 0 in Hcond.
           change (count llave_cierra (u "},")) with 1 in Hcond.
           change (count llave_abre (u "}")) with 0.
           change (count llave_cierra (u "}")) with 1. lia.
      * rewrite andb_false_r in Hcond. cbn [orb] in Hcond. split_and!; auto.
    + intros [= <- <-]. split; [|done]. intros _. by cbn.
Qed.

(** X12: every text handed to the classifier starts with an opening brace
    and ends with a closing brace, the comma after it removed; and it has as
    many opening braces as closing ones unless it is a single line of the
    input, trimmed. *)
Theorem forma_de_los_objetos (lineas : list str) :
  Forall (fun t => startswith t (u "{") = true /\ endswith t (u "}") = true
                   /\ (count llave_abre t = count llave_cierra t
                       \/ t ∈ map strip lineas))
         (objetos_de lector_inicial lineas).
Proof.
  assert (lector_ok lector_inicial) as Hini by (by intros [=]).
  revert Hini. generalize lector_inicial as r.
  induction lineas as [|linea lineas IH]; intros r Hr; [constructor|].
  cbn [objetos_de map].
  destruct (leer_linea r linea) as [r' o] eqn:Hleer.
  destruct (leer_linea_formas r r' linea o Hr Hleer) as [Hr' Ho].
  assert (Forall (fun t => startswith t (u "{") = true /\ endswith t (u "}") = true
                   /\ (count llave_abre t = count llave_cierra t
                       \/ t ∈ strip linea :: map strip lineas))
                 (objetos_de r' lineas)) as Hresto.
  { eapply Forall_impl; [by apply IH|]. intros t (? & ? & [?|?]); split_and!; auto.
    right. by right. }
  destruct o as [t|]; [|done].
  constructor; [|done]. destruct (Ho t eq_refl) as (? & ? & [?|Ht]); split_and!; auto.
  right. rewrite Ht. by left.
Qed.

End Formas.

(** ** The temporal aggregator over whole lists *)

Section Agregador.

Local Abbreviation cuenta p l :=
  (Z.of_nat (length (filter (fun usr : Info.t => Info.periodo usr = Some p) l))).

Local Abbreviation suma l := (foldr Z.add 0 l).

Lemma suma_indicador (q : str) (ps : list str) :
  NoDup ps ->
  suma (map (fun p => if decide (Some q = Some p) then 1 else 0) ps)
  = if decide (q ∈ ps) then 1 else 0.
Proof.
  induction 1 as [|p ps Hp Hnd IH]; [done|]. cbn [map foldr]. rewrite IH.
  destruct (decide (q = p)) as [->|Hne].
  - rewrite decide_True by done. rewrite decide_False by done.
    rewrite decide_True by left. done.
  - rewrite decide_False by congruence.
    destruct (decide (q ∈ ps)).
    + rewrite decide_True by (by right). done.
    + rewrite decide_False; [done|]. by intros [?|?]%elem_of_cons.
Qed.

Lemma suma_mas (f g : str -> Z) (ps : list str) :
  suma (map (fun p => f p + g p) ps) = suma (map f ps) + suma (map g ps).
Proof. induction ps as [|p ps IH]; cbn [map foldr]; lia. Qed.

Lemma suma_cuentas (ps : list str) (l : list Info.t) :
  NoDup ps ->
  (forall usr p, usr ∈ l -> Info.periodo usr = Some p -> p ∈ ps) ->
  suma (map (fun p => cuenta p l) ps)
  = Z.of_nat (length (filter (fun usr : Info.t => is_Some (Info.periodo usr)) l)).
Proof.
  intros Hnd. induction l as [|usr l IH]; intros Hps.
  - clear. induction ps as [|p ps IHps]; [done|]. cbn [map foldr]. by rewrite IHps.
  - assert (forall p, cuenta p (usr :: l)
                      = (if decide (Info.periodo usr = Some p) then 1 else 0) + cuenta p l)
      as Hcons.
    { intros p. rewrite filter_cons.
      destruct (decide (Info.periodo usr = Some p)); [rewrite length_cons|]; lia. }
    rewrite (map_ext _ _ Hcons), suma_mas, IH.
    2:{ intros x p Hx. apply Hps. by right. }
    rewrite filter_cons. destruct (Info.periodo usr) as [q|] eqn:Hq.
    + rewrite decide_True by done. rewrite suma_indicador by done.
      rewrite decide_True; [simpl; lia|]. apply (Hps usr); [left|done].
    + rewrite decide_False by (by intros [? ?]).
      replace (suma (map _ ps)) with 0; [lia|].
      clear. induction ps; [done|]. cbn [map foldr]. rewrite <-IHps.
      by rewrite decide_False.
Qed.

Lemma contar_periodo_permutacion (l l' : list Info.t) :
  l ≡ₚ l' -> foldl contar_periodo ∅ l = foldl contar_periodo ∅ l'.
Proof.
  intros Hperm. apply map_eq. intros p.
  destruct (contar_periodo_foldl l ∅ p) as [Hc Hs].
  destruct (contar_periodo_foldl l' ∅ p) as [Hc' Hs'].
  assert (is_Some (foldl contar_periodo ∅ l !! p)
          <-> is_Some (foldl contar_periodo ∅ l' !! p)) as Hsome.
  { rewrite Hs, Hs'. by setoid_rewrite Hperm. }
  assert (length (filter (fun usr : Info.t => Info.periodo usr = Some p) l)
          = length (filter (fun usr : Info.t => Info.periodo usr = Some p) l')) as Hlen
    by (by rewrite Hperm).
  rewrite Hlen, <-Hc' in Hc. clear Hc' Hs Hs' Hlen.
  destruct (foldl contar_periodo ∅ l !! p) as [a|],
           (foldl contar_periodo ∅ l' !! p) as [b|]; simpl in *.
  - by rewrite Hc.
  - by destruct (proj1 Hsome) as [? [=]].
  - by destruct (proj2 Hsome) as [? [=]].
  - done.
Qed.

(** The periods and the buckets of the aggregator, by counting. *)
Lemma datos_de_la_distribucion (sin con : list Info.t) :
  let a := analizar_distribucion_temporal sin con in
  StronglySorted str_lt (Temporal.periodos a)
  /\ NoDup (Temporal.periodos a)
  /\ (forall p : str,
        p ∈ Temporal.periodos a
        <-> exists usr, usr ∈ sin ++ con /\ Info.periodo usr = Some p)
  /\ Temporal.datos a
     = map (fun p =>
              {| Bucket.periodo := p;
                 Bucket.sin_prefijo := cuenta p sin;
                 Bucket.con_prefijo := cuenta p con;
                 Bucket.total := cuenta p sin + cuenta p con;
                 Bucket.porcentaje_sin_prefijo :=
                   porcentaje (cuenta p sin) (cuenta p sin + cuenta p con);
                 Bucket.porcentaje_con_prefijo :=
                   porcentaje (cuenta p con) (cuenta p sin + cuenta p con) |})
           (Temporal.periodos a).
Proof.
  intros a. subst a. unfold analizar_distribucion_temporal.
  cbn [Temporal.periodos Temporal.datos].
  set (ps := foldl contar_periodo ∅ sin). set (pc := foldl contar_periodo ∅ con).
  destruct (sorted_ascendente (elements (dom ps ∪ dom pc))) as [Hasc Hel];
    [apply NoDup_elements|].
  split; [done|]. split.
  { unfold sorted. rewrite merge_sort_Permutation. apply NoDup_elements. }
  split.
  - intros p. rewrite Hel, elem_of_elements, elem_of_union, !elem_of_dom.
    subst ps pc.
    rewrite (proj2 (contar_periodo_foldl sin ∅ p)), (proj2 (contar_periodo_foldl con ∅ p)).
    rewrite lookup_empty. setoid_rewrite elem_of_app. split.
    + intros [[[? [=]]|(x & ? & ?)]|[[? [=]]|(x & ? & ?)]]; exists x; auto.
    + intros (x & [?|?] & ?); [left|right]; right; eauto.
  - apply map_ext. intros p. subst ps pc.
    rewrite (proj1 (contar_periodo_foldl sin ∅ p)), (proj1 (contar_periodo_foldl con ∅ p)).
    by rewrite lookup_empty.
Qed.

(** X13: the aggregator does not depend on the order of the users in its
    two lists. *)
Theorem distribucion_sin_orden (sin sin' con con' : list Info.t) :
  sin ≡ₚ sin' -> con ≡ₚ con' ->
  analizar_distribucion_temporal sin con = analizar_distribucion_temporal sin' con'.
Proof.
  intros Hsin Hcon. unfold analizar_distribucion_temporal.
  by rewrite (contar_periodo_permutacion sin sin' Hsin),
             (contar_periodo_permutacion con con' Hcon).
Qed.

(** X14: the buckets of the aggregator are in the order of its periods, one
    per period; in each one [total] is the sum of the two counts; and over
    all buckets the counts without prefix, the counts with prefix and the
    totals add up to the number of users that have a period in the first
    list, in the second list and in both: a user with a period is counted
    in exactly one bucket, a user without one in none. *)
Theorem totales_de_los_periodos (sin con : list Info.t) :
  let a := analizar_distribucion_temporal sin con in
  map Bucket.periodo (Temporal.datos a) = Temporal.periodos a
  /\ Forall (fun b => Bucket.total b = Bucket.sin_prefijo b + Bucket.con_prefijo b)
            (Temporal.datos a)
  /\ suma (map Bucket.sin_prefijo (Temporal.datos a))
     = Z.of_nat (length (filter (fun usr : Info.t => is_Some (Info.periodo usr)) sin))
  /\ suma (map Bucket.con_prefijo (Temporal.datos a))
     = Z.of_nat (length (filter (fun usr : Info.t => is_Some (Info.periodo usr)) con))
  /\ suma (map Bucket.total (Temporal.datos a))
     = Z.of_nat (length (filter (fun usr : Info.t => is_Some (Info.periodo usr))
                                (sin ++ con))).
Proof.
  intros a. destruct (datos_de_la_distribucion sin con) as (_ & Hnd & Hel & Hdatos).
  fold a in Hnd, Hel, Hdatos. rewrite Hdatos. clear Hdatos.
  generalize dependent (Temporal.periodos a). clear a. intros periodos Hnd Hel.
  rewrite !map_map. cbn [Bucket.periodo Bucket.sin_prefijo Bucket.con_prefijo Bucket.total].
  assert (suma (map (fun p => cuenta p sin) periodos)
          = Z.of_nat (length (filter (fun usr : Info.t => is_Some (Info.periodo usr)) sin)))
    as Hsin.
  { apply suma_cuentas; [done|].
    intros usr p Husr Hp. apply Hel. exists usr. split; [|done]. apply elem_of_app. by left. }
  assert (suma (map (fun p => cuenta p con) periodos)
          = Z.of_nat (length (filter (fun usr : Info.t => is_Some (Info.periodo usr)) con)))
    as Hcon.
  { apply suma_cuentas; [done|].
    intros usr p Husr Hp. apply Hel. exists usr. split; [|done]. apply elem_of_app. by right. }
  split_and!; try done.
  - apply map_id.
  - apply Forall_map, Forall_forall. by intros p _.
  - rewrite suma_mas, Hsin, Hcon, filter_app, length_app. lia.
Qed.

End Agregador.

(** Two users in either order. *)
Lemma distribucion_sin_orden_witness :
  analizar_distribucion_temporal
    [info_ejemplo (Some (u "2024-02")); info_ejemplo (Some (u "2024-01"))] []
  = analizar_distribucion_temporal
      [info_ejemplo (Some (u "2024-01")); info_ejemplo (Some (u "2024-02"))] [].
Proof.
  apply distribucion_sin_orden; [apply perm_swap|reflexivity].
Defined.

(** ** A run without registration index *)

Section SinIndice.
Context {E : Entorno}.

Lemma indice_vacio (archivo_csv : option (list Byte.byte)) :
  (archivo_csv = None
   \/ exists contenido : list Byte.byte,
        archivo_csv = Some contenido
        /\ let encabezado :=
             leer_encabezado
               (default [] (head (split salto_linea (decode (sin_bom contenido))))) in
           en_lista (u "hostRegister") encabezado && en_lista (u "phone") encabezado
           = false) ->
  (cargar_datos_csv archivo_csv).2 = ∅.
Proof.
  intros [->|(contenido & -> & Henc)]; [done|]. unfold cargar_datos_csv.
  destruct (split _ _) as [|primera datos]; [done|].
  cbn [head default from_option id] in Henc. cbn zeta in Henc. by rewrite Henc.
Qed.

Lemma sin_periodo_sin_conteo (l : list Info.t) (m : gmap str Z) :
  Forall (fun i => Info.periodo i = None) l -> foldl contar_periodo m l = m.
Proof.
  induction 1 as [|i l Hi _ IH]; [done|]. cbn [foldl]. unfold contar_periodo at 2.
  by rewrite Hi.
Qed.

Lemma sin_periodos_distribucion (sin con : list Info.t) :
  Forall (fun i => Info.periodo i = None) sin ->
  Forall (fun i => Info.periodo i = None) con ->
  analizar_distribucion_temporal sin con
  = {| Temporal.periodos := []; Temporal.datos := [] |}.
Proof.
  intros Hsin Hcon. unfold analizar_distribucion_temporal.
  rewrite !sin_periodo_sin_conteo by done.
  rewrite dom_empty_L, union_empty_l_L, elements_empty. done.
Qed.

Lemma clasificado_sin_indice (usuario : valor) (r : Procesado.t) :
  procesar_usuario usuario ∅ = ret (Some r) ->
  Info.periodo (Procesado.info r) = None
  /\ Info.anio_registro (Procesado.info r) = None
  /\ Info.mes_registro (Procesado.info r) = None.
Proof.
  intros Hr.
  destruct (procesar_usuario_clasifica _ _ r Hr)
    as (_ & _ & _ & _ & _ & _ & Hanio & Hmes & Hperiodo & _).
  rewrite lookup_empty in Hanio, Hmes, Hperiodo. done.
Qed.

(** X15: when the registration file cannot be read, or its header lacks
    [hostRegister] or [phone], the index is empty and the run goes on without
    it: no user of either list has a year, a month or a period, and the
    temporal analysis of the summary has no period and no bucket. *)
Theorem sin_indice_sin_periodos (archivo_csv : option (list Byte.byte))
    (archivo_json : option (list str)) :
  (archivo_csv = None
   \/ exists contenido : list Byte.byte,
        archivo_csv = Some contenido
        /\ let encabezado :=
             leer_encabezado
               (default [] (head (split salto_linea (decode (sin_bom contenido))))) in
           en_lista (u "hostRegister") encabezado && en_lista (u "phone") encabezado
           = false) ->
  let a := (analizar_archivo_json_streaming archivo_csv archivo_json).2 in
  (cargar_datos_csv archivo_csv).2 = ∅
  /\ Forall (fun i => Info.periodo i = None /\ Info.anio_registro i = None
                      /\ Info.mes_registro i = None) (a.1.1.1 ++ a.1.1.2)
  /\ (forall r : Resumen.t,
        a.2 = Some r ->
        Resumen.analisis_temporal r = {| Temporal.periodos := []; Temporal.datos := [] |}).
Proof.
  intros Hcsv%indice_vacio a. split; [done|]. subst a.
  unfold analizar_archivo_json_streaming.
  destruct (cargar_datos_csv archivo_csv) as [impreso fechas]. cbn [snd] in Hcsv. subst fechas.
  destruct archivo_json as [lineas|]; [|by split].
  case_bool_decide; [by split|]. cbn [fst snd].
  destruct (bucle_por_objetos ∅ (tail lineas) (estado_inicial (MsgAnalizando :: impreso)))
    as (_ & _ & Hsin & Hcon & _).
  cbn [estado_inicial Estado.usuarios_sin_prefijo Estado.usuarios_con_prefijo app Estado.lector]
    in Hsin, Hcon.
  assert (Forall (fun i => Info.periodo i = None /\ Info.anio_registro i = None
                           /\ Info.mes_registro i = None)
                 (Estado.usuarios_sin_prefijo
                    (foldl (paso ∅) (estado_inicial (MsgAnalizando :: impreso)) (tail lineas))
                  ++ Estado.usuarios_con_prefijo
                       (foldl (paso ∅) (estado_inicial (MsgAnalizando :: impreso))
                              (tail lineas)))) as Htodos.
  { rewrite Hsin, Hcon. apply Forall_app.
    split; apply Forall_fmap, Forall_forall; intros r [_ Hr]%list_elem_of_filter;
      apply clasificados_de_textos in Hr as [usuario Hr];
      by apply clasificado_sin_indice in Hr. }
  split; [done|]. intros r [= <-]. cbn [resumir Resumen.analisis_temporal].
  apply Forall_app in Htodos as [Hs Hc].
  apply sin_periodos_distribucion; eapply Forall_impl; eauto; by intros ? [? _].
Qed.

End SinIndice.

(** The worked export with a registration file whose columns have other
    names. *)
Lemma sin_indice_sin_periodos_witness :
  (cargar_datos_csv (E := entorno_ejemplo) (Some csv_sin_columnas)).2 = ∅
  /\ forall r : Resumen.t,
       (analizar_archivo_json_streaming (E := entorno_ejemplo)
          (Some csv_sin_columnas) (Some json_ejemplo)).2.2 = Some r ->
       Resumen.analisis_temporal r = {| Temporal.periodos := []; Temporal.datos := [] |}.
Proof.
  destruct (sin_indice_sin_periodos (E := entorno_ejemplo)
              (Some csv_sin_columnas) (Some json_ejemplo)) as (Hvacio & _ & Hresumen).
  { right. exists csv_sin_columnas. split; [reflexivity|]. vm_compute. reflexivity. }
  split; [exact Hvacio|exact Hresumen].
Defined.

(** ** The result writer *)

Section Escritor.

Local Abbreviation cuenta p l :=
  (Z.of_nat (length (filter (fun usr : Info.t => Info.periodo usr = Some p) l))).


End Escritor.


(** ** The driver *)

Section Principal.
Context {E : Entorno}.



End Principal.
